(** * rebind: the LD_PRELOAD interposer for bind(2) of [src/rebind.c]

    A shallow embedding of the single function of [rebind.c], [bind], and of
    the pieces of libc it is written against ([strtol], [htons], [ntohs],
    [memcpy], [getenv], [setsockopt], [dlsym]).  The platform is the one the
    file targets: glibc on Linux, LP64, little-endian host. *)

From Stdlib Require Import ZArith NArith List String Ascii Bool Lia.
From coqutil Require Import Byte.
Import ListNotations.
Local Open Scope list_scope.
Local Open Scope Z_scope.

(** ** C integer types *)

Module CInt.

Definition LONG_MAX : Z := 2 ^ 63 - 1.
Definition LONG_MIN : Z := - 2 ^ 63.

(** The value [strtol] reports for a mathematical value outside [long]. *)
Definition saturate_long (z : Z) : Z :=
  if z <? LONG_MIN then LONG_MIN
  else if LONG_MAX <? z then LONG_MAX
  else z.

(** Conversion of a [long] to [int] ([int oldport = strtol (...)]): gcc keeps
    the low 32 bits, two's complement. *)
Definition to_int (z : Z) : Z := (z + 2 ^ 31) mod 2 ^ 32 - 2 ^ 31.

(** Conversion of an [int] to [uint16_t], the parameter type of [htons]. *)
Definition to_uint16 (z : Z) : Z := z mod 2 ^ 16.

(** [htons x], as the two bytes it leaves in memory: most significant first. *)
Definition htons (x : Z) : list byte :=
  let h := to_uint16 x in [byte.of_Z (h / 256); byte.of_Z h].

(** [htonl x], as the four bytes it leaves in memory. *)
Definition htonl (x : Z) : list byte :=
  let h := x mod 2 ^ 32 in
  [byte.of_Z (h / 2 ^ 24); byte.of_Z (h / 2 ^ 16); byte.of_Z (h / 2 ^ 8); byte.of_Z h].

(** [ntohs] of a 16-bit field, read from the two bytes it occupies. *)
Definition ntohs (bs : list byte) : Z :=
  match bs with
  | [hi; lo] => byte.unsigned hi * 256 + byte.unsigned lo
  | _ => 0
  end.

(** A 16-bit field in host order (little-endian), such as [sa_family]. *)
Definition host16 (bs : list byte) : Z :=
  match bs with
  | [lo; hi] => byte.unsigned lo + byte.unsigned hi * 256
  | _ => 0
  end.

(** A 32-bit value in host order, as stored by an assignment to an [int]
    or [uint32_t] object. *)
Definition store32 (x : Z) : list byte :=
  let h := x mod 2 ^ 32 in
  [byte.of_Z h; byte.of_Z (h / 2 ^ 8); byte.of_Z (h / 2 ^ 16); byte.of_Z (h / 2 ^ 24)].

End CInt.

(** ** [strtol (nptr, &end, 10)]

    The C library function, after ISO C 7.22.1.4 in the C locale: white space
    is skipped, one sign is accepted, then the longest run of decimal digits
    is converted.  The result is the value (saturated to [long]) and the
    unconverted rest of the string, which is what [end] points to.  Without a
    digit nothing is converted: the value is 0 and [end] is [nptr] itself.
    When the value is saturated, [errno] is set to [ERANGE]. *)

Module Strtol.

Definition isspace (c : ascii) : bool :=
  let n := N_of_ascii c in
  ((n =? 32) || ((9 <=? n) && (n <=? 13)))%N.

Definition digit (c : ascii) : option Z :=
  let n := Z.of_N (N_of_ascii c) in
  if (48 <=? n) && (n <=? 57) then Some (n - 48) else None.

Definition isdigit (c : ascii) : bool :=
  match digit c with Some _ => true | None => false end.

Fixpoint skip_space (s : string) : string :=
  match s with
  | String c s' => if isspace c then skip_space s' else s
  | EmptyString => s
  end.

Fixpoint digits (acc : Z) (s : string) : Z * string :=
  match s with
  | String c s' =>
      match digit c with
      | Some d => digits (10 * acc + d) s'
      | None => (acc, s)
      end
  | EmptyString => (acc, s)
  end.

Definition sign (s : string) : bool * string :=
  match s with
  | String c s' =>
      if Ascii.eqb c "-" then (true, s')
      else if Ascii.eqb c "+" then (false, s')
      else (false, s)
  | EmptyString => (false, s)
  end.

(** The subject sequence, once white space is gone: nothing when no digit
    follows the optional sign. *)
Definition convert (s : string) : option (Z * string) :=
  let (neg, t) := sign s in
  match t with
  | String c _ =>
      if isdigit c then
        let (v, rest) := digits 0 t in
        Some (if neg then - v else v, rest)
      else None
  | EmptyString => None
  end.

Definition strtol (nptr : string) : Z * string :=
  match convert (skip_space nptr) with
  | Some (v, rest) => (CInt.saturate_long v, rest)
  | None => (0, nptr)
  end.

(** Whether [strtol nptr] sets [errno]. *)
Definition out_of_range (nptr : string) : bool :=
  match convert (skip_space nptr) with
  | Some (v, _) => (v <? CInt.LONG_MIN) || (CInt.LONG_MAX <? v)
  | None => false
  end.

End Strtol.

(** ** Constants of the system headers (Linux) *)

Definition AF_UNSPEC : Z := 0.
Definition AF_INET : Z := 2.
Definition AF_INET6 : Z := 10.
Definition IPPROTO_IPV6 : Z := 41.
Definition IPV6_V6ONLY : Z := 26.
Definition ERANGE : Z := 34.
Definition INADDR_LOOPBACK : Z := 0x7f000001.

(** [struct sockaddr], [struct sockaddr_in], [struct sockaddr_in6] and
    [struct sockaddr_storage]: sizes and field offsets, in bytes. *)
Definition sizeof_sockaddr_in : nat := 16.
Definition sizeof_sockaddr_in6 : nat := 28.
Definition sizeof_sockaddr_storage : nat := 128.
Definition offsetof_sa_family : nat := 0.
Definition offsetof_sin_port : nat := 2.
Definition offsetof_sin_addr : nat := 4.
Definition offsetof_sin6_port : nat := 2.
Definition offsetof_sin6_addr : nat := 8.
Definition offsetof_sin6_scope_id : nat := 24.

(** ** The decision of [bind] (rebind.c, lines 70-84) *)

Definition nonempty (s : string) : bool :=
  match s with EmptyString => false | String _ _ => true end.

Definition at_end (s : string) : bool :=
  match s with EmptyString => true | String _ _ => false end.

(** The locals [do_move], [oldport] and [newport] once line 84 is reached. *)
Record decision : Type := Decision {
  do_move : bool;
  oldport : Z;
  newport : Z
}.

(** Lines 76-82, from what the two calls of [strtol] answered. *)
Definition verdict (r1 r2 : Z * string) (askport : Z) : decision :=
  let (l1, end1) := r1 in
  let (l2, end2) := r2 in
  let oldport := CInt.to_int l1 in
  let newport := CInt.to_int l2 in
  Decision
    (negb (oldport =? 0) && at_end end1 &&
     negb (newport =? 0) && at_end end2 &&
     (oldport =? askport))
    oldport newport.

(** Lines 74-83 as a function of what the two calls of [getenv] answered. *)
Definition parse_ports (PORT_OLD PORT_NEW : option string) (askport : Z)
  : decision :=
  match PORT_OLD, PORT_NEW with
  | Some old, Some new =>
      if nonempty old && nonempty new then
        verdict (Strtol.strtol old) (Strtol.strtol new) askport
      else Decision false 0 0
  | _, _ => Decision false 0 0
  end.

(** Lines 71-84 as a function of the environment. *)
Definition decide (environ : string -> option string) (family askport : Z)
  : decision :=
  if (family =? AF_INET) || (family =? AF_INET6) then
    parse_ports (environ "REBIND_OLD_PORT"%string)
                (environ "REBIND_NEW_PORT"%string) askport
  else Decision false 0 0.

(** ** Byte buffers *)

(** The [len] bytes of [bs] from offset [off]. *)
Definition field (bs : list byte) (off len : nat) : list byte :=
  firstn len (skipn off bs).

(** [old] with the bytes from offset [off] replaced by [bs]. *)
Definition splice (old : list byte) (off : nat) (bs : list byte) : list byte :=
  firstn off old ++ bs ++ skipn (off + List.length bs) old.

(** ** Memory, the process and the world around [bind] *)

(** The storage [bind] touches: objects of the caller, named by an address,
    and its own local [addr_tmp]. *)
Inductive region : Type :=
| Caller (a : nat)
| Addr_tmp.

(** A pointer to the start of a region, or the null pointer. *)
Definition pointer : Type := option region.
Definition NULL : pointer := None.

(** The bytes mapped at each region: an access beyond them is a fault. *)
Record memory : Type := Memory {
  caller : nat -> list byte;
  addr_tmp : list byte
}.

Definition bytes_at (m : memory) (r : region) : list byte :=
  match r with
  | Caller a => caller m a
  | Addr_tmp => addr_tmp m
  end.

Definition update (m : memory) (r : region) (bs : list byte) : memory :=
  match r with
  | Caller a => Memory (fun b => if Nat.eqb a b then bs else caller m b) (addr_tmp m)
  | Addr_tmp => Memory (caller m) bs
  end.

Definition pointee (m : memory) (p : pointer) : list byte :=
  match p with
  | Some r => bytes_at m r
  | None => []
  end.

(** The calls [bind] makes to the outside, with the bytes the address
    argument points to at the time of the call. *)
Inductive call : Type :=
| Call_setsockopt (sockfd level optname : Z) (optval : list byte)
| Call_func (sockfd : Z) (addr : pointer) (pointee : list byte) (addrlen : N).

Section Interposer.

(** State of the kernel and of libc as the process sees it: the sockets
    and [errno]. *)
Variable K : Type.

(** The type of [func]: a [bind] implementation reads its arguments and
    memory, and answers with a result and a new kernel state. *)
Definition fnptr : Type := Z -> pointer -> N -> memory -> K -> Z * K.

(** What [dlsym (RTLD_NEXT, "bind")] answers, what a store to [errno] does,
    and [setsockopt]. *)
Variable dlsym_next_bind : option fnptr.
Variable set_errno : Z -> K -> K.
Variable setsockopt : Z -> Z -> Z -> list byte -> K -> Z * K.

Record process : Type := Process {
  func : option fnptr;                  (* the static [func] of [bind] *)
  environ : string -> option string;    (* what [getenv] finds *)
  mem : memory;
  stack : nat -> byte;                  (* what lies where [addr_tmp] is put *)
  os : K;
  trace : list call                     (* the calls made so far, oldest first *)
}.

Definition set_func (f : option fnptr) (p : process) : process :=
  Process f (environ p) (mem p) (stack p) (os p) (trace p).

Definition set_environ (e : string -> option string) (p : process) : process :=
  Process (func p) e (mem p) (stack p) (os p) (trace p).

Definition set_mem (m : memory) (p : process) : process :=
  Process (func p) (environ p) m (stack p) (os p) (trace p).

Definition set_os (k : K) (p : process) : process :=
  Process (func p) (environ p) (mem p) (stack p) k (trace p).

Definition log (c : call) (p : process) : process :=
  Process (func p) (environ p) (mem p) (stack p) (os p) (trace p ++ [c]).

(** A run of C code either returns, or stops at an invalid memory access
    or a call through a null function pointer. *)
Inductive outcome (A : Type) : Type :=
| Returned (a : A) (p : process)
| Faulted (p : process).

Arguments Returned {A} a p.
Arguments Faulted {A} p.

Definition M (A : Type) : Type := process -> outcome A.

Definition ret {A : Type} (a : A) : M A := fun p => Returned a p.

Definition mbind {A B : Type} (m : M A) (k : A -> M B) : M B :=
  fun p =>
    match m p with
    | Returned a p' => k a p'
    | Faulted p' => Faulted p'
    end.

Notation "x <- m ;; k" := (mbind m (fun x => k))
  (at level 61, m at next level, right associativity).
Notation "m ;;; k" := (mbind m (fun _ => k))
  (at level 61, right associativity).

Definition final {A : Type} (o : outcome A) : process :=
  match o with
  | Returned _ p => p
  | Faulted p => p
  end.

Definition result {A : Type} (o : outcome A) : option A :=
  match o with
  | Returned a _ => Some a
  | Faulted _ => None
  end.

(** [len] bytes at offset [off] from [p]. *)
Definition load (p : pointer) (off len : nat) : M (list byte) :=
  fun s =>
    match p with
    | None => Faulted s
    | Some r =>
        let bs := bytes_at (mem s) r in
        if (off + len <=? List.length bs)%nat
        then Returned (field bs off len) s
        else Faulted s
    end.

(** Overwrite the bytes at offset [off] from [p] with [bs]. *)
Definition store (p : pointer) (off : nat) (bs : list byte) : M unit :=
  fun s =>
    match p with
    | None => Faulted s
    | Some r =>
        let old := bytes_at (mem s) r in
        if (off + List.length bs <=? List.length old)%nat
        then Returned tt (set_mem (update (mem s) r (splice old off bs)) s)
        else Faulted s
    end.

Definition memcpy (dst src : pointer) (n : nat) : M unit :=
  bs <- load src 0 n ;; store dst 0 bs.

(** Entering [bind]: [addr_tmp] is [sizeof (struct sockaddr_storage)] bytes
    of the stack, not initialised. *)
Definition enter : M unit :=
  fun s =>
    Returned tt
      (set_mem (update (mem s) Addr_tmp
                  (map (stack s) (seq 0 sizeof_sockaddr_storage))) s).

Definition getenv (name : string) : M (option string) :=
  fun s => Returned (environ s name) s.

(** [strtol (nptr, &end, 10)], with its store to [errno]. *)
Definition note_range (nptr : string) (k : K) : K :=
  if Strtol.out_of_range nptr then set_errno ERANGE k else k.

Definition strtol (nptr : string) : M (Z * string) :=
  fun s => Returned (Strtol.strtol nptr) (set_os (note_range nptr (os s)) s).

(** [if (!func) func = dlsym (RTLD_NEXT, "bind");] *)
Definition resolve : M unit :=
  fun s =>
    match func s with
    | Some _ => Returned tt s
    | None => Returned tt (set_func dlsym_next_bind s)
    end.

(** [func (sockfd, addr, addrlen)] *)
Definition call_func (sockfd : Z) (addr : pointer) (addrlen : N) : M Z :=
  fun s =>
    match func s with
    | None => Faulted s
    | Some f =>
        let (r, k) := f sockfd addr addrlen (mem s) (os s) in
        Returned r (set_os k (log (Call_func sockfd addr (pointee (mem s) addr) addrlen) s))
    end.

Definition call_setsockopt (sockfd level optname : Z) (optval : list byte) : M Z :=
  fun s =>
    let (r, k) := setsockopt sockfd level optname optval (os s) in
    Returned r (set_os k (log (Call_setsockopt sockfd level optname optval) s)).

(** [inet_ntop (af, src, addr_str, sizeof (addr_str))]: reads the 4 or 16
    bytes of the address at [src]; the text it writes to the local
    [addr_str] is used by [DEBUG] only, which expands to nothing. *)
Definition inet_ntop (af : Z) (p : pointer) (off : nat) : M unit :=
  load p off (if af =? AF_INET then 4%nat else 16%nat) ;;; ret tt.

(** [::ffff:127.0.0.1] *)
Definition v4_loopback_mapped : list byte :=
  map byte.of_Z [0; 0; 0; 0; 0; 0; 0; 0; 0; 0; 0xff; 0xff; 127; 0; 0; 1].

(** Lines 97-100: [addrlen_tmp], at most [sizeof (addr_tmp)]. *)
Definition cap (addrlen : N) : N :=
  if (N.of_nat sizeof_sockaddr_storage <? addrlen)%N
  then N.of_nat sizeof_sockaddr_storage else addrlen.

(** ** [bind] *)

(** Lines 57-65: the port asked for, and the address for the diagnostic.
    Every family other than [AF_INET] is read as a [struct sockaddr_in6]. *)
Definition inspect (addr : pointer) (family : Z) : M Z :=
  if family =? AF_INET then
    bs <- load addr offsetof_sin_port 2 ;;
    inet_ntop AF_INET addr offsetof_sin_addr ;;;
    ret (CInt.ntohs bs)
  else
    bs <- load addr offsetof_sin6_port 2 ;;
    inet_ntop AF_INET6 addr offsetof_sin6_addr ;;;
    ret (CInt.ntohs bs).

(** Lines 70-84: determine if we should move this socket. *)
Definition determine (family askport : Z) : M decision :=
  if (family =? AF_INET) || (family =? AF_INET6) then
    PORT_OLD <- getenv "REBIND_OLD_PORT" ;;
    PORT_NEW <- getenv "REBIND_NEW_PORT" ;;
    match PORT_OLD, PORT_NEW with
    | Some old, Some new =>
        if nonempty old && nonempty new then
          r1 <- strtol old ;;
          r2 <- strtol new ;;
          ret (verdict r1 r2 askport)
        else ret (Decision false 0 0)
    | _, _ => ret (Decision false 0 0)
    end
  else ret (Decision false 0 0).

(** Lines 96-119: bind to the other port on the loopback instead. *)
Definition move (sockfd : Z) (addr : pointer) (addrlen : N)
  (family newport : Z) : M Z :=
  let addrlen_tmp := cap addrlen in
  memcpy (Some Addr_tmp) addr (N.to_nat addrlen_tmp) ;;;
  (if family =? AF_INET then
     store (Some Addr_tmp) offsetof_sin_addr (CInt.htonl INADDR_LOOPBACK) ;;;
     store (Some Addr_tmp) offsetof_sin_port (CInt.htons newport)
   else
     call_setsockopt sockfd IPPROTO_IPV6 IPV6_V6ONLY (CInt.store32 0) ;;;
     store (Some Addr_tmp) offsetof_sin6_addr v4_loopback_mapped ;;;
     store (Some Addr_tmp) offsetof_sin6_port (CInt.htons newport) ;;;
     store (Some Addr_tmp) offsetof_sin6_scope_id (CInt.store32 0)) ;;;
  call_func sockfd (Some Addr_tmp) addrlen_tmp.

Definition bind (sockfd : Z) (addr : option nat) (addrlen : N) : M Z :=
  let a : pointer := option_map Caller addr in
  enter ;;;
  family <- match addr with
            | Some _ => bs <- load a offsetof_sa_family 2 ;; ret (CInt.host16 bs)
            | None => ret AF_UNSPEC
            end ;;
  resolve ;;;
  askport <- inspect a family ;;
  d <- determine family askport ;;
  if negb (do_move d) then
    (* just pass everything right through to the real bind *)
    call_func sockfd a addrlen
  else
    move sockfd a addrlen family (newport d).

(** The implementation a call of [bind] in state [s] ends up with in [func]. *)
Definition resolved (s : process) : option fnptr :=
  match func s with
  | Some f => Some f
  | None => dlsym_next_bind
  end.

(** The kernel state once lines 70-84 have run: [k], and [ERANGE] in [errno]
    where [strtol] was called and met a value out of range. *)
Definition parsed (environ : string -> option string) (family : Z) (k : K) : K :=
  if (family =? AF_INET) || (family =? AF_INET6) then
    match environ "REBIND_OLD_PORT"%string, environ "REBIND_NEW_PORT"%string with
    | Some old, Some new =>
        if nonempty old && nonempty new
        then note_range new (note_range old k) else k
    | _, _ => k
    end
  else k.

(** [addr_tmp] on entry. *)
Definition fresh (s : process) : list byte :=
  map (stack s) (seq 0 sizeof_sockaddr_storage).

End Interposer.

Arguments Process {K}.
Arguments func {K}.
Arguments environ {K}.
Arguments mem {K}.
Arguments stack {K}.
Arguments os {K}.
Arguments trace {K}.
Arguments set_environ {K}.
Arguments Returned {K A}.
Arguments Faulted {K A}.
Arguments final {K A}.
Arguments result {K A}.
Arguments resolved {K}.
Arguments fresh {K}.
Arguments set_func {K}.
Arguments set_mem {K}.
Arguments set_os {K}.
Arguments log {K}.
Arguments ret {K A}.
Arguments mbind {K A B}.
Arguments load {K}.
Arguments store {K}.
Arguments memcpy {K}.
Arguments enter {K}.
Arguments getenv {K}.
Arguments resolve {K}.
Arguments note_range {K}.
Arguments strtol {K}.
Arguments parsed {K}.
Arguments call_func {K}.
Arguments call_setsockopt {K}.
Arguments inet_ntop {K}.
Arguments inspect {K}.
Arguments determine {K}.
Arguments move {K}.
Arguments bind {K}.

(** A computation that leaves every object of the caller as it was,
    however it ends. *)
Definition keeps_caller {K A : Type} (m : M K A) : Prop :=
  forall s : process K, caller (mem (final (m s))) = caller (mem s).

(** [setsockopt] answering [recode r] where it answered [r]. *)
Definition recoded {K : Type} (recode : Z -> Z)
  (setsockopt : Z -> Z -> Z -> list byte -> K -> Z * K)
  : Z -> Z -> Z -> list byte -> K -> Z * K :=
  fun sockfd level optname optval k =>
    let rk := setsockopt sockfd level optname optval k in
    (recode (fst rk), snd rk).

(** ** Reading a request *)

(** The caller's object at address [a]. *)
Definition object {K : Type} (s : process K) (a : nat) : list byte :=
  caller (mem s) a.

(** The family and the port of the socket address in [obj], as lines 51-65
    read them, and how many bytes of [obj] those lines look at. *)
Definition sa_family (obj : list byte) : Z :=
  CInt.host16 (field obj offsetof_sa_family 2).

Definition sin_port (obj : list byte) : Z :=
  CInt.ntohs (field obj offsetof_sin_port 2).

Definition inspected (family : Z) : nat :=
  if family =? AF_INET then 8%nat else 24%nat.

(** The offsets lines 104-118 write to. *)
Definition rewritten (family : Z) (i : nat) : bool :=
  if family =? AF_INET then ((2 <=? i) && (i <? 8))%nat
  else (((2 <=? i) && (i <? 4)) || ((8 <=? i) && (i <? 28)))%nat.

(** What lines 96-118 leave in [addr_tmp]: the first [n] bytes of the
    caller's [obj] over what was there, then the fields of either family. *)
Definition redirected (family newport : Z) (junk obj : list byte) (n : nat)
  : list byte :=
  let copy := splice junk 0 (field obj 0 n) in
  if family =? AF_INET then
    splice (splice copy offsetof_sin_addr (CInt.htonl INADDR_LOOPBACK))
      offsetof_sin_port (CInt.htons newport)
  else
    splice
      (splice (splice copy offsetof_sin6_addr v4_loopback_mapped)
         offsetof_sin6_port (CInt.htons newport))
      offsetof_sin6_scope_id (CInt.store32 0).

(** The pointer handed to [func] by the last call made. *)
Definition delegated (t : list call) : option pointer :=
  match last t (Call_setsockopt 0 0 0 []) with
  | Call_func _ p _ _ => Some p
  | Call_setsockopt _ _ _ _ => None
  end.

(** ** Numerals, as [strtol] takes them *)

Module Numeral.

Fixpoint all_digits (s : string) : bool :=
  match s with
  | String c s' => Strtol.isdigit c && all_digits s'
  | EmptyString => true
  end.

(** The value of a string of decimal digits. *)
Fixpoint decimal (s : string) : Z :=
  match s with
  | String c s' =>
      match Strtol.digit c with
      | Some d => d * 10 ^ Z.of_nat (String.length s') + decimal s'
      | None => 0
      end
  | EmptyString => 0
  end.

Definition digit_string (s : string) : Prop :=
  nonempty s = true /\ all_digits s = true.

(** [denotes s v]: [s] is white space, then an optional sign, then one or
    more decimal digits and nothing else, and [v] is the integer written. *)
Inductive denotes : string -> Z -> Prop :=
| den_space (c : ascii) (s : string) (v : Z) :
    Strtol.isspace c = true -> denotes s v -> denotes (String c s) v
| den_minus (s : string) :
    digit_string s -> denotes (String "-" s) (- decimal s)
| den_plus (s : string) :
    digit_string s -> denotes (String "+" s) (decimal s)
| den_digits (s : string) :
    digit_string s -> denotes s (decimal s).

End Numeral.

(** ** The selection rule in the words of the specification *)

Module Spec.

(** "present, non-empty, and parse entirely as positive base-10 integers" *)
Definition positive_integer (v : option string) : option Z :=
  match v with
  | Some s =>
      let (n, rest) := Strtol.strtol s in
      if nonempty s && at_end rest && (0 <? n) then Some n else None
  | None => None
  end.

(** "redirection is selected if and only if the family is IPv4 or IPv6, both
    variables are valid, and the old port equals the requested port" *)
Definition selects (environ : string -> option string) (family askport : Z)
  : bool :=
  ((family =? AF_INET) || (family =? AF_INET6)) &&
  match positive_integer (environ "REBIND_OLD_PORT"%string),
        positive_integer (environ "REBIND_NEW_PORT"%string) with
  | Some old, Some _ => old =? askport
  | _, _ => false
  end.

End Spec.

(** ** A concrete process, for running the model *)

Module Sample.

Definition env_of (old new : option string) : string -> option string :=
  fun name =>
    if String.eqb name "REBIND_OLD_PORT" then old
    else if String.eqb name "REBIND_NEW_PORT" then new
    else None.

Definition zeros (n : nat) : list byte := repeat (byte.of_Z 0) n.

(** A [struct sockaddr_in] and a [struct sockaddr_in6]. *)
Definition sockaddr_in (port : Z) (ip : list Z) : list byte :=
  [byte.of_Z AF_INET; byte.of_Z 0] ++ CInt.htons port ++ map byte.of_Z ip ++ zeros 8.

Definition sockaddr_in6 (port : Z) (ip : list Z) (scope : Z) : list byte :=
  [byte.of_Z AF_INET6; byte.of_Z 0] ++ CInt.htons port ++ zeros 4 ++
  map byte.of_Z ip ++ CInt.store32 scope.

Definition wildcard6 : list Z := [0; 0; 0; 0; 0; 0; 0; 0; 0; 0; 0; 0; 0; 0; 0; 0].

(** The kernel state is [errno]; this [bind] always fails with
    [EADDRINUSE], this [setsockopt] with [ENOPROTOOPT]. *)
Definition EADDRINUSE : Z := 98.
Definition ENOPROTOOPT : Z := 92.

Definition busy : fnptr Z := fun _ _ _ _ _ => (-1, EADDRINUSE).

Definition set_errno : Z -> Z -> Z := fun e _ => e.

Definition no_option : Z -> Z -> Z -> list byte -> Z -> Z * Z :=
  fun _ _ _ _ _ => (-1, ENOPROTOOPT).

(** A process that has not called [bind] yet, with one object of the
    caller at address 0. *)
Definition start (old new : option string) (obj : list byte) : process Z :=
  Process None (env_of old new)
    (Memory (fun a => match a with O => obj | _ => [] end) [])
    (fun _ => byte.of_Z 0xaa) 0 [].

(** 10.0.0.1:8080 with 8080 moved to 9090, and [::]:80 with 80 moved to 8080. *)
Definition ipv4_8080 : process Z :=
  start (Some "8080"%string) (Some "9090"%string) (sockaddr_in 8080 [10; 0; 0; 1]).

Definition ipv6_80 : process Z :=
  start (Some "80"%string) (Some "8080"%string) (sockaddr_in6 80 wildcard6 5).

(** 10.0.0.1:8080 with 8080 moved to 65536. *)
Definition ipv4_wrap : process Z :=
  start (Some "8080"%string) (Some "65536"%string) (sockaddr_in 8080 [10; 0; 0; 1]).

(** A [struct sockaddr_in] followed by more of the caller's memory, passed
    with a length beyond [sizeof (struct sockaddr_storage)]. *)
Definition ipv4_long : process Z :=
  start (Some "8080"%string) (Some "9090"%string)
    (sockaddr_in 8080 [10; 0; 0; 1] ++ repeat (byte.of_Z 0x55) 184).

End Sample.


(** ** Further notions for stating what [bind] does *)

(** A computation that leaves the static [func] as it was, however it ends. *)
Definition keeps_func {K A : Type} (m : M K A) : Prop :=
  forall s : process K, func (final (m s)) = func s.

(** A computation that cannot return while [func] is null. *)
Definition never_returns {K A : Type} (m : M K A) : Prop :=
  forall s : process K, func s = None -> result (m s) = None.

(** The outcome [o] of a call of [bind] started in [s] is that of the one
    call [f (sockfd, addr, addrlen)] on the caller's own pointer, made in
    kernel state [k]: nothing else was called, and the result and the kernel
    state are those [f] answered. *)
Definition passes_through {K : Type} (o : outcome K Z) (s : process K)
  (f : fnptr K) (sockfd : Z) (a : nat) (addrlen : N) (k : K) : Prop :=
  let rk := f sockfd (Some (Caller a)) addrlen
              (Memory (caller (mem s)) (fresh s)) k in
  trace (final o) =
    trace s ++ [Call_func sockfd (Some (Caller a)) (object s a) addrlen] /\
  result o = Some (fst rk) /\
  os (final o) = snd rk.

(** [!(PORT && *PORT != '\0')]: the variable is not set, or set to nothing. *)
Definition unset (v : option string) : bool :=
  match v with
  | Some s => negb (nonempty s)
  | None => true
  end.

Definition is_setsockopt (c : call) : bool :=
  match c with
  | Call_setsockopt _ _ _ _ => true
  | Call_func _ _ _ _ => false
  end.

Definition is_func (c : call) : bool := negb (is_setsockopt c).

(** [s] with the caller's object at address [a] replaced by [obj]. *)
Definition with_object {K : Type} (s : process K) (a : nat) (obj : list byte)
  : process K :=
  set_mem (update (mem s) (Caller a) obj) s.

(** More processes to run the model on. *)
Module Cases.

(** 10.0.0.1:8081 and 10.0.0.1:0, with 8080 moved to 9090. *)
Definition ipv4_8081 : process Z :=
  Sample.start (Some "8080"%string) (Some "9090"%string)
    (Sample.sockaddr_in 8081 [10; 0; 0; 1]).

Definition ipv4_any_port : process Z :=
  Sample.start (Some "8080"%string) (Some "9090"%string)
    (Sample.sockaddr_in 0 [10; 0; 0; 1]).

(** 10.0.0.1:8080 with REBIND_OLD_PORT not set. *)
Definition ipv4_no_old : process Z :=
  Sample.start None (Some "9090"%string) (Sample.sockaddr_in 8080 [10; 0; 0; 1]).

(** A [struct sockaddr_un] (family 1, 110 bytes) and a [struct sockaddr_nl]
    (family 16, 12 bytes) with nothing mapped after it. *)
Definition unix_socket : process Z :=
  Sample.start (Some "8080"%string) (Some "9090"%string)
    ([byte.of_Z 1; byte.of_Z 0] ++ Sample.zeros 108).

Definition netlink_socket : process Z :=
  Sample.start (Some "8080"%string) (Some "9090"%string)
    ([byte.of_Z 16; byte.of_Z 0] ++ Sample.zeros 10).

(** [Sample.ipv4_8080] after a first call: [func] is set. *)
Definition ipv4_8080_again : process Z :=
  set_func (Some Sample.busy) Sample.ipv4_8080.

End Cases.


(** * Properties *)

(** ** [strtol] accepts exactly the numerals *)

Module StrtolFacts.
Import Strtol Numeral.

Lemma isdigit_other (c : ascii) :
  isdigit c = true ->
  isspace c = false /\ Ascii.eqb c "-" = false /\ Ascii.eqb c "+" = false.
Proof.
  destruct c as [[] [] [] [] [] [] [] []]; vm_compute; intro H;
    try discriminate H; repeat split.
Qed.

Lemma isdigit_digit (c : ascii) :
  isdigit c = true -> exists d, digit c = Some d.
Proof.
  unfold isdigit. destruct (digit c) as [d|]; [eauto | discriminate].
Qed.

Lemma digits_all (s : string) :
  forall acc, all_digits s = true ->
  digits acc s = (acc * 10 ^ Z.of_nat (String.length s) + decimal s, EmptyString).
Proof.
  induction s as [|c s IH]; intros acc H;
    cbn [digits all_digits decimal String.length] in *.
  - f_equal. change (10 ^ Z.of_nat 0) with 1. lia.
  - apply andb_true_iff in H. destruct H as [Hc Hs].
    destruct (isdigit_digit c Hc) as [d Hd]. rewrite Hd.
    rewrite (IH _ Hs). f_equal.
    rewrite Nat2Z.inj_succ, Z.pow_succ_r by lia. ring.
Qed.

Lemma digits_at_end (s : string) :
  forall acc v rest, digits acc s = (v, rest) -> at_end rest = true ->
  all_digits s = true.
Proof.
  induction s as [|c s IH]; intros acc v rest H E; simpl in *.
  - reflexivity.
  - unfold isdigit. destruct (digit c) as [d|].
    + simpl. eapply IH; eassumption.
    + inversion H; subst. discriminate E.
Qed.

Lemma digit_string_head (s : string) :
  digit_string s -> exists c s', s = String c s' /\ isdigit c = true.
Proof.
  intros [Hn Hd]. destruct s as [|c s']; [discriminate Hn|].
  simpl in Hd. apply andb_true_iff in Hd. exists c, s'. tauto.
Qed.

Lemma digits_value (s : string) :
  all_digits s = true -> digits 0 s = (decimal s, EmptyString).
Proof.
  intros H. rewrite digits_all by assumption. reflexivity.
Qed.

Lemma convert_digit_string (s : string) :
  digit_string s -> convert s = Some (decimal s, EmptyString).
Proof.
  intros H. destruct (digit_string_head s H) as (c & s' & -> & Hc).
  destruct (isdigit_other c Hc) as (_ & Hm & Hp).
  unfold convert, sign. rewrite Hm, Hp, Hc.
  now rewrite digits_value by apply H.
Qed.

Lemma skip_space_digit_string (s : string) :
  digit_string s -> skip_space s = s.
Proof.
  intros H. destruct (digit_string_head s H) as (c & s' & -> & Hc).
  destruct (isdigit_other c Hc) as (Hs & _). simpl. now rewrite Hs.
Qed.

Lemma convert_denotes (s : string) (v : Z) :
  denotes s v -> convert (skip_space s) = Some (v, EmptyString).
Proof.
  induction 1 as [c s v Hc _ IH | s H | s H | s H].
  - simpl. now rewrite Hc.
  - destruct (digit_string_head s H) as (c & s' & E & Hc).
    change (skip_space (String "-" s)) with (String "-" s).
    unfold convert, sign. change (Ascii.eqb "-" "-") with true. cbv iota.
    rewrite E, Hc, <- E. now rewrite digits_value by apply H.
  - destruct (digit_string_head s H) as (c & s' & E & Hc).
    change (skip_space (String "+" s)) with (String "+" s).
    unfold convert, sign. change (Ascii.eqb "+" "-") with false.
    change (Ascii.eqb "+" "+") with true. cbv iota.
    rewrite E, Hc, <- E. now rewrite digits_value by apply H.
  - rewrite skip_space_digit_string by assumption.
    now apply convert_digit_string.
Qed.

Lemma strtol_denotes (s : string) (v : Z) :
  denotes s v -> strtol s = (CInt.saturate_long v, EmptyString).
Proof.
  intros H. unfold strtol. now rewrite (convert_denotes s v H).
Qed.

Lemma out_of_range_denotes (s : string) (v : Z) :
  denotes s v ->
  out_of_range s = (v <? CInt.LONG_MIN) || (CInt.LONG_MAX <? v).
Proof.
  intros H. unfold out_of_range. now rewrite (convert_denotes s v H).
Qed.

Lemma denotes_skip_space (s : string) (v : Z) :
  denotes (skip_space s) v -> denotes s v.
Proof.
  induction s as [|c s IH]; simpl; [easy|].
  destruct (isspace c) eqn:Hc; [|easy].
  intros H. apply den_space; auto.
Qed.

Lemma convert_at_end (s : string) (v : Z) (rest : string) :
  convert s = Some (v, rest) -> at_end rest = true -> denotes s v.
Proof.
  unfold convert. destruct s as [|c s]; [discriminate|]. unfold sign.
  destruct (Ascii.eqb_spec c "-") as [-> | Hm];
    [| destruct (Ascii.eqb_spec c "+") as [-> | Hp]].
  - destruct s as [|d s]; [discriminate|].
    destruct (isdigit d) eqn:Hd; [|discriminate].
    destruct (digits 0 (String d s)) as [n r] eqn:E.
    intros [= <- <-] Hr. pose proof (digits_at_end _ _ _ _ E Hr) as Ha.
    rewrite digits_value in E by assumption. injection E as <- _.
    apply den_minus. now split.
  - destruct s as [|d s]; [discriminate|].
    destruct (isdigit d) eqn:Hd; [|discriminate].
    destruct (digits 0 (String d s)) as [n r] eqn:E.
    intros [= <- <-] Hr. pose proof (digits_at_end _ _ _ _ E Hr) as Ha.
    rewrite digits_value in E by assumption. injection E as <- _.
    apply den_plus. now split.
  - destruct (isdigit c) eqn:Hd; [|discriminate].
    destruct (digits 0 (String c s)) as [n r] eqn:E.
    intros [= <- <-] Hr. pose proof (digits_at_end _ _ _ _ E Hr) as Ha.
    rewrite digits_value in E by assumption. injection E as <- _.
    apply den_digits. now split.
Qed.

Lemma strtol_entire (s : string) :
  nonempty s = true -> at_end (snd (strtol s)) = true ->
  exists z, denotes s z /\ fst (strtol s) = CInt.saturate_long z.
Proof.
  intros Hn. unfold strtol.
  destruct (convert (skip_space s)) as [[v rest]|] eqn:E; simpl.
  - intros Hr. exists v. split; [|reflexivity].
    apply denotes_skip_space. eapply convert_at_end; eassumption.
  - intros Hr. destruct s; discriminate.
Qed.

Lemma denotes_nonempty (s : string) (v : Z) : denotes s v -> nonempty s = true.
Proof.
  destruct 1 as [| | | s [H _]]; auto.
Qed.

End StrtolFacts.

(** ** The decision *)

Lemma family_test (family : Z) :
  (family =? AF_INET) || (family =? AF_INET6) = true <->
  family = AF_INET \/ family = AF_INET6.
Proof.
  rewrite orb_true_iff, !Z.eqb_eq. tauto.
Qed.

Lemma parse_ports_true (PORT_OLD PORT_NEW : option string) (askport : Z) :
  do_move (parse_ports PORT_OLD PORT_NEW askport) = true <->
  exists old new,
    PORT_OLD = Some old /\ PORT_NEW = Some new /\
    nonempty old = true /\ nonempty new = true /\
    at_end (snd (Strtol.strtol old)) = true /\
    at_end (snd (Strtol.strtol new)) = true /\
    CInt.to_int (fst (Strtol.strtol old)) <> 0 /\
    CInt.to_int (fst (Strtol.strtol new)) <> 0 /\
    CInt.to_int (fst (Strtol.strtol old)) = askport.
Proof.
  unfold parse_ports.
  destruct PORT_OLD as [old|], PORT_NEW as [new|];
    try (split; [discriminate | intros (o & n & Ho & Hn & _); discriminate]).
  destruct (Strtol.strtol old) as [l1 end1] eqn:S1.
  destruct (Strtol.strtol new) as [l2 end2] eqn:S2. unfold verdict.
  destruct (nonempty old) eqn:E1, (nonempty new) eqn:E2; cbn [andb do_move];
    try (split; [discriminate
                | intros (o & n & [= <-] & [= <-] & H1 & H2 & _); congruence]).
  rewrite !andb_true_iff, !negb_true_iff, !Z.eqb_neq, Z.eqb_eq. split.
  - intros ((((H1 & H2) & H3) & H4) & H5). exists old, new.
    rewrite S1, S2. cbn [fst snd]. intuition auto.
  - intros (o & n & [= <-] & [= <-] & _ & _ & H).
    rewrite S1, S2 in H. cbn [fst snd] in H. tauto.
Qed.

(** C1, as the code has it: redirection is selected exactly when the family is
    AF_INET or AF_INET6, both REBIND_OLD_PORT and REBIND_NEW_PORT are set and
    each is, in full, white space, an optional sign and one or more decimal
    digits, both values (saturated to long, narrowed to int) are non-zero, and
    the old one equals the requested port.  Nothing asks for a positive value. *)
Theorem decide_selects_iff
  (environ : string -> option string) (family askport : Z) :
  do_move (decide environ family askport) = true <->
  (family = AF_INET \/ family = AF_INET6) /\
  exists old new vo vn,
    environ "REBIND_OLD_PORT"%string = Some old /\
    environ "REBIND_NEW_PORT"%string = Some new /\
    Numeral.denotes old vo /\ Numeral.denotes new vn /\
    CInt.to_int (CInt.saturate_long vo) <> 0 /\
    CInt.to_int (CInt.saturate_long vn) <> 0 /\
    CInt.to_int (CInt.saturate_long vo) = askport.
Proof.
  unfold decide.
  destruct ((family =? AF_INET) || (family =? AF_INET6)) eqn:F.
  - apply family_test in F. rewrite parse_ports_true. split.
    + intros (old & new & Ho & Hn & N1 & N2 & E1 & E2 & Z1 & Z2 & A).
      split; [assumption|].
      destruct (StrtolFacts.strtol_entire old N1 E1) as (vo & Do & Vo).
      destruct (StrtolFacts.strtol_entire new N2 E2) as (vn & Dn & Vn).
      exists old, new, vo, vn. rewrite <- Vo, <- Vn. intuition auto.
    + intros (_ & old & new & vo & vn & Ho & Hn & Do & Dn & Z1 & Z2 & A).
      exists old, new.
      rewrite (StrtolFacts.strtol_denotes old vo Do).
      rewrite (StrtolFacts.strtol_denotes new vn Dn). cbn [fst snd at_end].
      pose proof (StrtolFacts.denotes_nonempty _ _ Do).
      pose proof (StrtolFacts.denotes_nonempty _ _ Dn). intuition auto.
  - split; [discriminate|]. intros [H _]. apply family_test in H. congruence.
Qed.

(** C1, as stated, fails: with REBIND_OLD_PORT=8080 and REBIND_NEW_PORT=-1 an
    IPv4 request for port 8080 is redirected, although -1 is not a positive
    integer. *)
Lemma negative_new_port_is_selected :
  do_move (decide (Sample.env_of (Some "8080"%string) (Some "-1"%string))
             AF_INET 8080) = true /\
  Spec.selects (Sample.env_of (Some "8080"%string) (Some "-1"%string))
    AF_INET 8080 = false.
Proof.
  split; vm_compute; reflexivity.
Qed.

(** ** Byte buffers *)

Module BufferFacts.

Lemma nth_error_field (bs : list byte) (off len i : nat) :
  nth_error (field bs off len) i =
  if (i <? len)%nat then nth_error bs (off + i) else None.
Proof.
  unfold field. rewrite nth_error_firstn, nth_error_skipn. reflexivity.
Qed.

Lemma length_field (bs : list byte) (off len : nat) :
  (off + len <= List.length bs)%nat -> List.length (field bs off len) = len.
Proof.
  intros H. unfold field. rewrite length_firstn, length_skipn. lia.
Qed.

Lemma length_splice (old : list byte) (off : nat) (bs : list byte) :
  (off + List.length bs <= List.length old)%nat ->
  List.length (splice old off bs) = List.length old.
Proof.
  intros H. unfold splice.
  rewrite !length_app, length_firstn, length_skipn. lia.
Qed.

Lemma nth_error_splice (old : list byte) (off : nat) (bs : list byte) (i : nat) :
  (off + List.length bs <= List.length old)%nat ->
  nth_error (splice old off bs) i =
  if ((off <=? i) && (i <? off + List.length bs))%nat
  then nth_error bs (i - off) else nth_error old i.
Proof.
  intros H. unfold splice.
  assert (L : List.length (firstn off old) = off)
    by (rewrite length_firstn; lia).
  destruct (Nat.leb_spec off i) as [Hi | Hi]; cbn [andb].
  - rewrite nth_error_app2 by lia. rewrite L.
    destruct (Nat.ltb_spec i (off + List.length bs)) as [Hj | Hj].
    + rewrite nth_error_app1 by lia. reflexivity.
    + rewrite nth_error_app2 by lia. rewrite nth_error_skipn. f_equal. lia.
  - rewrite nth_error_app1 by lia. rewrite nth_error_firstn.
    destruct (Nat.ltb_spec i off); [reflexivity | lia].
Qed.

Lemma field_splice_same (old : list byte) (off : nat) (bs : list byte) :
  (off + List.length bs <= List.length old)%nat ->
  field (splice old off bs) off (List.length bs) = bs.
Proof.
  intros H. apply nth_error_ext. intros i.
  rewrite nth_error_field, nth_error_splice by assumption.
  destruct (Nat.ltb_spec i (List.length bs)) as [Hi | Hi].
  - destruct (Nat.leb_spec off (off + i)); [|lia].
    destruct (Nat.ltb_spec (off + i) (off + List.length bs)); [|lia].
    cbn [andb]. f_equal. lia.
  - symmetry. apply nth_error_None. assumption.
Qed.

Lemma field_splice_other (old : list byte) (off : nat) (bs : list byte)
  (off' len' : nat) :
  (off + List.length bs <= List.length old)%nat ->
  (off' + len' <= off \/ off + List.length bs <= off')%nat ->
  field (splice old off bs) off' len' = field old off' len'.
Proof.
  intros H D. apply nth_error_ext. intros i.
  rewrite !nth_error_field, nth_error_splice by assumption.
  destruct (Nat.ltb_spec i len') as [Hi | Hi]; [|reflexivity].
  destruct (Nat.leb_spec off (off' + i));
    destruct (Nat.ltb_spec (off' + i) (off + List.length bs));
    cbn [andb]; try reflexivity; lia.
Qed.

Lemma length_fresh {K : Type} (s : process K) :
  List.length (fresh s) = sizeof_sockaddr_storage.
Proof.
  unfold fresh. now rewrite length_map, length_seq.
Qed.

End BufferFacts.

(** ** Running [bind] *)

Section Runs.

Context {K : Type}.
Variable dlsym_next_bind : option (fnptr K).
Variable set_errno : Z -> K -> K.
Variable setsockopt : Z -> Z -> Z -> list byte -> K -> Z * K.

Lemma mbind_returned {A B : Type} (m : M K A) (k : A -> M K B)
  (s s' : process K) (a : A) :
  m s = Returned a s' -> mbind m k s = k a s'.
Proof.
  intros H. unfold mbind. now rewrite H.
Qed.

Lemma load_caller (s : process K) (a off len : nat) :
  (off + len <= List.length (caller (mem s) a))%nat ->
  load (Some (Caller a)) off len s =
  Returned (field (caller (mem s) a) off len) s.
Proof.
  intros H. unfold load. cbn [bytes_at].
  apply Nat.leb_le in H. now rewrite H.
Qed.

Lemma store_addr_tmp (s : process K) (off : nat) (bs : list byte) :
  (off + List.length bs <= List.length (addr_tmp (mem s)))%nat ->
  store (Some Addr_tmp) off bs s =
  Returned tt
    (Process (func s) (environ s)
       (Memory (caller (mem s)) (splice (addr_tmp (mem s)) off bs))
       (stack s) (os s) (trace s)).
Proof.
  intros H. unfold store. cbn [bytes_at].
  apply Nat.leb_le in H. now rewrite H.
Qed.

Lemma resolve_resolved (s : process K) (f : fnptr K) :
  resolved dlsym_next_bind s = Some f ->
  resolve dlsym_next_bind s =
  Returned tt (Process (Some f) (environ s) (mem s) (stack s) (os s) (trace s)).
Proof.
  unfold resolved, resolve. destruct s as [[g|] e m st k t]; cbn.
  - now intros [= ->].
  - now intros ->.
Qed.

Lemma call_func_returns (sockfd : Z) (p : pointer) (addrlen : N)
  (s : process K) (f : fnptr K) :
  func s = Some f ->
  let rk := f sockfd p addrlen (mem s) (os s) in
  call_func sockfd p addrlen s =
  Returned (fst rk)
    (Process (Some f) (environ s) (mem s) (stack s) (snd rk)
       (trace s ++ [Call_func sockfd p (pointee (mem s) p) addrlen])).
Proof.
  intros H rk. unfold call_func. rewrite H. subst rk.
  destruct (f sockfd p addrlen (mem s) (os s)). unfold set_os, log. cbn.
  now rewrite H.
Qed.

Lemma call_setsockopt_returns (sockfd level optname : Z) (optval : list byte)
  (s : process K) :
  let rk := setsockopt sockfd level optname optval (os s) in
  call_setsockopt setsockopt sockfd level optname optval s =
  Returned (fst rk)
    (Process (func s) (environ s) (mem s) (stack s) (snd rk)
       (trace s ++ [Call_setsockopt sockfd level optname optval])).
Proof.
  intros rk. unfold call_setsockopt. subst rk.
  now destruct (setsockopt sockfd level optname optval (os s)).
Qed.

Lemma inspect_caller (s : process K) (a : nat) (family : Z) :
  (inspected family <= List.length (caller (mem s) a))%nat ->
  inspect (Some (Caller a)) family s = Returned (sin_port (caller (mem s) a)) s.
Proof.
  unfold inspect, inspected, inet_ntop, sin_port.
  destruct (family =? AF_INET); intros H.
  - change (AF_INET =? AF_INET) with true. cbv iota.
    assert (H1 : (offsetof_sin_port + 2 <= List.length (caller (mem s) a))%nat)
      by (cbn; lia).
    assert (H2 : (offsetof_sin_addr + 4 <= List.length (caller (mem s) a))%nat)
      by (cbn; lia).
    rewrite (mbind_returned _ _ _ _ _ (load_caller s a _ _ H1)).
    rewrite (mbind_returned _ _ s s tt); [reflexivity|].
    now rewrite (mbind_returned _ _ _ _ _ (load_caller s a _ _ H2)).
  - change (AF_INET6 =? AF_INET) with false. cbv iota.
    assert (H1 : (offsetof_sin6_port + 2 <= List.length (caller (mem s) a))%nat)
      by (cbn; lia).
    assert (H2 : (offsetof_sin6_addr + 16 <= List.length (caller (mem s) a))%nat)
      by (cbn; lia).
    rewrite (mbind_returned _ _ _ _ _ (load_caller s a _ _ H1)).
    rewrite (mbind_returned _ _ s s tt); [reflexivity|].
    now rewrite (mbind_returned _ _ _ _ _ (load_caller s a _ _ H2)).
Qed.

Lemma determine_decide (s : process K) (family askport : Z) :
  determine set_errno family askport s =
  Returned (decide (environ s) family askport)
    (Process (func s) (environ s) (mem s) (stack s)
       (parsed set_errno (environ s) family (os s)) (trace s)).
Proof.
  destruct s as [fn e m st k t].
  unfold determine, decide, parsed, parse_ports.
  destruct ((family =? AF_INET) || (family =? AF_INET6)); [|reflexivity].
  unfold getenv, strtol, mbind, ret, set_os.
  cbn [func environ mem stack os trace].
  destruct (e "REBIND_OLD_PORT"%string) as [old|]; [|reflexivity].
  destruct (e "REBIND_NEW_PORT"%string) as [new|]; [|reflexivity].
  now destruct (nonempty old && nonempty new).
Qed.

Lemma cap_le (addrlen : N) :
  (N.to_nat (cap addrlen) <= sizeof_sockaddr_storage)%nat.
Proof.
  unfold cap. destruct (N.ltb_spec (N.of_nat sizeof_sockaddr_storage) addrlen).
  - rewrite Nat2N.id. lia.
  - lia.
Qed.


Ltac sizes := cbn; unfold sizeof_sockaddr_storage in *; lia.

Lemma memcpy_to_addr_tmp (s : process K) (a n : nat) :
  (n <= List.length (caller (mem s) a))%nat ->
  (n <= List.length (addr_tmp (mem s)))%nat ->
  memcpy (Some Addr_tmp) (Some (Caller a)) n s =
  Returned tt
    (Process (func s) (environ s)
       (Memory (caller (mem s))
          (splice (addr_tmp (mem s)) 0 (field (caller (mem s) a) 0 n)))
       (stack s) (os s) (trace s)).
Proof.
  intros H1 H2. unfold memcpy.
  rewrite (mbind_returned _ _ _ _ _ (load_caller s a 0 n H1)).
  apply store_addr_tmp. rewrite BufferFacts.length_field; sizes.
Qed.

Lemma move_inet (sockfd : Z) (a : nat) (addrlen : N) (newport : Z)
  (s : process K) (f : fnptr K) :
  let obj := caller (mem s) a in
  let n := N.to_nat (cap addrlen) in
  func s = Some f ->
  (n <= List.length obj)%nat ->
  List.length (addr_tmp (mem s)) = sizeof_sockaddr_storage ->
  let buf := redirected AF_INET newport (addr_tmp (mem s)) obj n in
  let m := Memory (caller (mem s)) buf in
  let rk := f sockfd (Some Addr_tmp) (cap addrlen) m (os s) in
  move setsockopt sockfd (Some (Caller a)) addrlen AF_INET newport s =
  Returned (fst rk)
    (Process (Some f) (environ s) m (stack s) (snd rk)
       (trace s ++ [Call_func sockfd (Some Addr_tmp) buf (cap addrlen)])).
Proof.
  intros obj n F Hn L buf m rk. unfold move.
  change (AF_INET =? AF_INET) with true. cbv iota.
  pose proof (cap_le addrlen) as C. fold n in C.
  assert (L0 : List.length (splice (addr_tmp (mem s)) 0 (field obj 0 n))
               = sizeof_sockaddr_storage).
  { rewrite BufferFacts.length_splice; [assumption|].
    rewrite BufferFacts.length_field; sizes. }
  rewrite (mbind_returned _ _ _ _ _ (memcpy_to_addr_tmp s a n Hn ltac:(sizes))).
  erewrite mbind_returned.
  2:{ erewrite mbind_returned.
      2:{ apply store_addr_tmp. cbn [mem addr_tmp]. fold obj. rewrite L0.
          sizes. }
      apply store_addr_tmp. cbn [mem addr_tmp]. fold obj.
      rewrite BufferFacts.length_splice; rewrite L0; sizes. }
  cbn [mem addr_tmp caller func environ stack os trace].
  erewrite call_func_returns by (cbn [func]; exact F).
  cbn [mem addr_tmp caller func environ stack os trace pointee bytes_at].
  reflexivity.
Qed.

Lemma move_inet6 (sockfd : Z) (a : nat) (addrlen : N) (family newport : Z)
  (s : process K) (f : fnptr K) :
  let obj := caller (mem s) a in
  let n := N.to_nat (cap addrlen) in
  func s = Some f ->
  family <> AF_INET ->
  (n <= List.length obj)%nat ->
  List.length (addr_tmp (mem s)) = sizeof_sockaddr_storage ->
  let buf := redirected family newport (addr_tmp (mem s)) obj n in
  let m := Memory (caller (mem s)) buf in
  let optval := CInt.store32 0 in
  let k := snd (setsockopt sockfd IPPROTO_IPV6 IPV6_V6ONLY optval (os s)) in
  let rk := f sockfd (Some Addr_tmp) (cap addrlen) m k in
  move setsockopt sockfd (Some (Caller a)) addrlen family newport s =
  Returned (fst rk)
    (Process (Some f) (environ s) m (stack s) (snd rk)
       (trace s ++ [Call_setsockopt sockfd IPPROTO_IPV6 IPV6_V6ONLY optval;
                    Call_func sockfd (Some Addr_tmp) buf (cap addrlen)])).
Proof.
  intros obj n F N6 Hn L. unfold move, redirected.
  apply Z.eqb_neq in N6. rewrite N6. cbv zeta.
  pose proof (cap_le addrlen) as C. fold n in C.
  assert (L0 : List.length (splice (addr_tmp (mem s)) 0 (field obj 0 n))
               = sizeof_sockaddr_storage).
  { rewrite BufferFacts.length_splice; [assumption|].
    rewrite BufferFacts.length_field; sizes. }
  set (b0 := splice (addr_tmp (mem s)) 0 (field obj 0 n)) in *.
  set (b1 := splice b0 offsetof_sin6_addr v4_loopback_mapped).
  set (b2 := splice b1 offsetof_sin6_port (CInt.htons newport)).
  assert (L1 : List.length b1 = sizeof_sockaddr_storage)
    by (subst b1; rewrite BufferFacts.length_splice; rewrite L0; sizes).
  assert (L2 : List.length b2 = sizeof_sockaddr_storage)
    by (subst b2; rewrite BufferFacts.length_splice; rewrite L1; sizes).
  rewrite (mbind_returned _ _ _ _ _ (memcpy_to_addr_tmp s a n Hn ltac:(sizes))).
  fold obj. fold b0.
  erewrite mbind_returned.
  2:{ erewrite mbind_returned by apply call_setsockopt_returns.
      cbn [mem addr_tmp caller func environ stack os trace].
      erewrite mbind_returned.
      2:{ apply store_addr_tmp. cbn [mem addr_tmp]. rewrite L0. sizes. }
      cbn [mem addr_tmp caller func environ stack os trace]. fold b1.
      erewrite mbind_returned.
      2:{ apply store_addr_tmp. cbn [mem addr_tmp]. rewrite L1. sizes. }
      cbn [mem addr_tmp caller func environ stack os trace]. fold b2.
      apply store_addr_tmp. cbn [mem addr_tmp]. rewrite L2. sizes. }
  cbn [mem addr_tmp caller func environ stack os trace].
  erewrite call_func_returns by (cbn [func]; exact F).
  cbn [mem addr_tmp caller func environ stack os trace pointee bytes_at].
  rewrite <- app_assoc. reflexivity.
Qed.


(** [bind] up to line 85, for an address that can be read. *)
Lemma bind_decides (sockfd : Z) (a : nat) (addrlen : N) (s : process K)
  (f : fnptr K) :
  let obj := caller (mem s) a in
  let family := sa_family obj in
  let d := decide (environ s) family (sin_port obj) in
  let s1 := Process (Some f) (environ s) (Memory (caller (mem s)) (fresh s))
              (stack s) (parsed set_errno (environ s) family (os s))
              (trace s) in
  resolved dlsym_next_bind s = Some f ->
  (inspected family <= List.length obj)%nat ->
  bind dlsym_next_bind set_errno setsockopt sockfd (Some a) addrlen s =
  if do_move d then move setsockopt sockfd (Some (Caller a)) addrlen family (newport d) s1
  else call_func sockfd (Some (Caller a)) addrlen s1.
Proof.
  intros obj family d s1 R I. unfold bind. cbn [option_map].
  assert (I2 : (offsetof_sa_family + 2 <= List.length obj)%nat).
  { revert I. unfold inspected. destruct (family =? AF_INET); cbn; lia. }
  rewrite (mbind_returned _ _ s
             (Process (func s) (environ s) (Memory (caller (mem s)) (fresh s))
                (stack s) (os s) (trace s)) tt) by reflexivity.
  erewrite mbind_returned.
  2:{ erewrite mbind_returned by (apply load_caller; exact I2). reflexivity. }
  cbn [mem caller]. fold obj. fold (sa_family obj). fold family.
  erewrite mbind_returned by (apply resolve_resolved; exact R).
  cbn [mem caller addr_tmp func environ stack os trace].
  set (s0 := Process (Some f) (environ s) (Memory (caller (mem s)) (fresh s))
               (stack s) (os s) (trace s)).
  rewrite (mbind_returned _ _ _ _ _ (inspect_caller s0 a family I)).
  rewrite (mbind_returned _ _ _ _ _ (determine_decide s0 family _)).
  change (decide (environ s0) family (sin_port (caller (mem s0) a))) with d.
  change (Process (func s0) (environ s0) (mem s0) (stack s0)
            (parsed set_errno (environ s0) family (os s0)) (trace s0)) with s1.
  now destruct (do_move d).
Qed.

(** A call that is not moved: [func] gets the caller's own pointer and
    length, and what it answers is what [bind] returns. *)
Lemma bind_pass_through (sockfd : Z) (a : nat) (addrlen : N) (s : process K)
  (f : fnptr K) :
  let obj := caller (mem s) a in
  let m := Memory (caller (mem s)) (fresh s) in
  let rk := f sockfd (Some (Caller a)) addrlen m
              (parsed set_errno (environ s) (sa_family obj) (os s)) in
  resolved dlsym_next_bind s = Some f ->
  (inspected (sa_family obj) <= List.length obj)%nat ->
  do_move (decide (environ s) (sa_family obj) (sin_port obj)) = false ->
  bind dlsym_next_bind set_errno setsockopt sockfd (Some a) addrlen s =
  Returned (fst rk)
    (Process (Some f) (environ s) m (stack s) (snd rk)
       (trace s ++ [Call_func sockfd (Some (Caller a)) obj addrlen])).
Proof.
  intros obj m rk R I D.
  rewrite (bind_decides sockfd a addrlen s f R I). fold obj. rewrite D.
  erewrite call_func_returns by reflexivity. reflexivity.
Qed.

(** A call that is moved, for either family. *)
Lemma bind_moves_inet (sockfd : Z) (a : nat) (addrlen : N) (s : process K)
  (f : fnptr K) :
  let obj := caller (mem s) a in
  let d := decide (environ s) AF_INET (sin_port obj) in
  let buf := redirected AF_INET (newport d) (fresh s) obj (N.to_nat (cap addrlen)) in
  let m := Memory (caller (mem s)) buf in
  let rk := f sockfd (Some Addr_tmp) (cap addrlen) m
              (parsed set_errno (environ s) AF_INET (os s)) in
  resolved dlsym_next_bind s = Some f ->
  sa_family obj = AF_INET ->
  (8 <= List.length obj)%nat ->
  (N.to_nat (cap addrlen) <= List.length obj)%nat ->
  do_move d = true ->
  bind dlsym_next_bind set_errno setsockopt sockfd (Some a) addrlen s =
  Returned (fst rk)
    (Process (Some f) (environ s) m (stack s) (snd rk)
       (trace s ++ [Call_func sockfd (Some Addr_tmp) buf (cap addrlen)])).
Proof.
  intros obj d buf m rk R F I C D.
  rewrite (bind_decides sockfd a addrlen s f R); fold obj; rewrite F.
  2:{ exact I. }
  fold d. rewrite D.
  erewrite move_inet; [reflexivity | reflexivity | exact C |].
  apply BufferFacts.length_fresh.
Qed.

Lemma bind_moves_inet6 (sockfd : Z) (a : nat) (addrlen : N) (s : process K)
  (f : fnptr K) :
  let obj := caller (mem s) a in
  let d := decide (environ s) AF_INET6 (sin_port obj) in
  let buf := redirected AF_INET6 (newport d) (fresh s) obj (N.to_nat (cap addrlen)) in
  let m := Memory (caller (mem s)) buf in
  let optval := CInt.store32 0 in
  let k := snd (setsockopt sockfd IPPROTO_IPV6 IPV6_V6ONLY optval
                  (parsed set_errno (environ s) AF_INET6 (os s))) in
  let rk := f sockfd (Some Addr_tmp) (cap addrlen) m k in
  resolved dlsym_next_bind s = Some f ->
  sa_family obj = AF_INET6 ->
  (24 <= List.length obj)%nat ->
  (N.to_nat (cap addrlen) <= List.length obj)%nat ->
  do_move d = true ->
  bind dlsym_next_bind set_errno setsockopt sockfd (Some a) addrlen s =
  Returned (fst rk)
    (Process (Some f) (environ s) m (stack s) (snd rk)
       (trace s ++ [Call_setsockopt sockfd IPPROTO_IPV6 IPV6_V6ONLY optval;
                    Call_func sockfd (Some Addr_tmp) buf (cap addrlen)])).
Proof.
  intros obj d buf m optval k rk R F I C D.
  rewrite (bind_decides sockfd a addrlen s f R); fold obj; rewrite F.
  2:{ exact I. }
  fold d. rewrite D.
  erewrite move_inet6;
    [reflexivity | reflexivity | discriminate | exact C |].
  apply BufferFacts.length_fresh.
Qed.

(** With a null [addr] the family is [AF_UNSPEC], and line 63 reads the
    port through it. *)
Lemma bind_null (sockfd : Z) (addrlen : N) (s : process K) :
  bind dlsym_next_bind set_errno setsockopt sockfd None addrlen s =
  Faulted
    (Process (resolved dlsym_next_bind s) (environ s)
       (Memory (caller (mem s)) (fresh s)) (stack s) (os s) (trace s)).
Proof.
  unfold bind, resolved. cbn [option_map].
  destruct s as [[g|] e m st k t]; reflexivity.
Qed.

End Runs.

(** ** Byte order *)

Module CIntFacts.
Import CInt.

Lemma ntohs_htons (x : Z) : ntohs (htons x) = x mod 2 ^ 16.
Proof.
  unfold ntohs, htons, to_uint16. rewrite !byte.unsigned_of_Z. unfold byte.wrap.
  pose proof (Z.mod_pos_bound x (2 ^ 16) ltac:(lia)) as B.
  set (h := x mod 2 ^ 16) in *.
  rewrite (Z.mod_small (h / 256)).
  - change (2 ^ 8) with 256. pose proof (Z.div_mod h 256 ltac:(lia)). lia.
  - split; [apply Z.div_pos; lia|].
    apply Z.div_lt_upper_bound; lia.
Qed.

Lemma to_int_mod (z : Z) : to_int z mod 2 ^ 16 = z mod 2 ^ 16.
Proof.
  unfold to_int.
  rewrite (Z.mod_eq (z + 2 ^ 31) (2 ^ 32)) by lia.
  replace (z + 2 ^ 31 - 2 ^ 32 * ((z + 2 ^ 31) / 2 ^ 32) - 2 ^ 31)
    with (z + (- (2 ^ 16 * ((z + 2 ^ 31) / 2 ^ 32))) * 2 ^ 16) by lia.
  apply Z.mod_add. lia.
Qed.

Lemma htons_to_int (z : Z) : htons (to_int z) = htons z.
Proof.
  unfold htons, to_uint16. now rewrite to_int_mod.
Qed.

End CIntFacts.

(** ** What [addr_tmp] holds when [func] is called *)

Module RedirectedFacts.
Import BufferFacts.

Ltac layout :=
  cbn;
  unfold sizeof_sockaddr_storage, offsetof_sin_port, offsetof_sin_addr,
    offsetof_sin6_port, offsetof_sin6_addr, offsetof_sin6_scope_id in *;
  cbn; lia.

Ltac compare_all :=
  repeat match goal with
    | |- context [(?a <=? ?b)%nat] => destruct (Nat.leb_spec a b)
    | |- context [(?a <? ?b)%nat] => destruct (Nat.ltb_spec a b)
    end.

Lemma length_splice_is (size : nat) (old : list byte) (off : nat)
  (bs : list byte) :
  List.length old = size -> (off + List.length bs <= size)%nat ->
  List.length (splice old off bs) = size.
Proof.
  intros <- H. now apply length_splice.
Qed.

(** A store of a field fits in a buffer of the size of [addr_tmp]. *)
Ltac fits L :=
  match goal with
  | |- (_ <= List.length ?x)%nat =>
      replace (List.length x) with sizeof_sockaddr_storage
        by (symmetry; repeat (apply length_splice_is; [|layout]); exact L);
      layout
  end.

Section Buffer.

Variables (family newport : Z) (junk obj : list byte) (n : nat).
Hypothesis junk_size : List.length junk = sizeof_sockaddr_storage.
Hypothesis n_capped : (n <= sizeof_sockaddr_storage)%nat.
Hypothesis n_readable : (n <= List.length obj)%nat.

Let copy : list byte := splice junk 0 (field obj 0 n).

Lemma length_copy : List.length copy = sizeof_sockaddr_storage.
Proof.
  unfold copy. rewrite length_splice; [assumption|].
  rewrite length_field; cbn; lia.
Qed.

Lemma nth_error_copy (i : nat) :
  nth_error copy i = if (i <? n)%nat then nth_error obj i else nth_error junk i.
Proof.
  unfold copy. rewrite nth_error_splice by (rewrite length_field; cbn; lia).
  rewrite length_field by (cbn; lia). cbn [Nat.leb andb Nat.add].
  destruct (Nat.ltb_spec i n); [|reflexivity].
  rewrite nth_error_field, Nat.sub_0_r.
  destruct (Nat.ltb_spec i n); [reflexivity | lia].
Qed.

Lemma length_redirected :
  List.length (redirected family newport junk obj n) = sizeof_sockaddr_storage.
Proof.
  pose proof length_copy as L. unfold redirected. fold copy.
  destruct (family =? AF_INET);
    repeat (apply length_splice_is; [|layout]);
    exact L.
Qed.

Lemma redirected_inet_addr :
  family = AF_INET ->
  field (redirected family newport junk obj n) offsetof_sin_addr 4 =
  CInt.htonl INADDR_LOOPBACK.
Proof.
  intros ->. pose proof length_copy as L. unfold redirected. fold copy.
  change (AF_INET =? AF_INET) with true. cbv iota.
  rewrite field_splice_other; [| fits L | layout].
  apply (field_splice_same copy offsetof_sin_addr (CInt.htonl INADDR_LOOPBACK)).
  fits L.
Qed.

Lemma redirected_port :
  field (redirected family newport junk obj n) offsetof_sin_port 2 =
  CInt.htons newport.
Proof.
  pose proof length_copy as L. unfold redirected. fold copy.
  destruct (family =? AF_INET).
  - apply (field_splice_same _ offsetof_sin_port (CInt.htons newport)). fits L.
  - rewrite field_splice_other; [| fits L | layout].
    apply (field_splice_same _ offsetof_sin6_port (CInt.htons newport)). fits L.
Qed.

Lemma redirected_inet6_addr :
  family <> AF_INET ->
  field (redirected family newport junk obj n) offsetof_sin6_addr 16 =
  v4_loopback_mapped.
Proof.
  intros F. apply Z.eqb_neq in F.
  pose proof length_copy as L. unfold redirected. fold copy. rewrite F.
  rewrite field_splice_other; [| fits L | layout].
  rewrite field_splice_other; [| fits L | layout].
  apply (field_splice_same copy offsetof_sin6_addr v4_loopback_mapped). fits L.
Qed.

Lemma redirected_inet6_scope :
  family <> AF_INET ->
  field (redirected family newport junk obj n) offsetof_sin6_scope_id 4 =
  CInt.store32 0.
Proof.
  intros F. apply Z.eqb_neq in F.
  pose proof length_copy as L. unfold redirected. fold copy. rewrite F.
  apply (field_splice_same _ offsetof_sin6_scope_id (CInt.store32 0)). fits L.
Qed.

(** Away from the fields of lines 104-118, [addr_tmp] holds the first [n]
    bytes of the caller's object and, after them, what it held before. *)
Lemma redirected_elsewhere (i : nat) :
  rewritten family i = false ->
  nth_error (redirected family newport junk obj n) i =
  if (i <? n)%nat then nth_error obj i else nth_error junk i.
Proof.
  pose proof length_copy as L. rewrite <- nth_error_copy.
  unfold redirected, rewritten. fold copy.
  destruct (family =? AF_INET); intros R.
  - rewrite nth_error_splice by fits L. rewrite nth_error_splice by fits L.
    revert R. unfold offsetof_sin_port, offsetof_sin_addr.
    change (List.length (CInt.htonl INADDR_LOOPBACK)) with 4%nat.
    change (List.length (CInt.htons newport)) with 2%nat.
    cbn [Nat.add].
    compare_all; cbn [andb orb]; intros; try reflexivity; try discriminate; lia.
  - rewrite nth_error_splice by fits L. rewrite nth_error_splice by fits L.
    rewrite nth_error_splice by fits L.
    revert R. unfold offsetof_sin6_port, offsetof_sin6_addr, offsetof_sin6_scope_id.
    change (List.length (CInt.store32 0)) with 4%nat.
    change (List.length (CInt.htons newport)) with 2%nat.
    change (List.length v4_loopback_mapped) with 16%nat.
    cbn [Nat.add].
    compare_all; cbn [andb orb]; intros; try reflexivity; try discriminate; lia.
Qed.

End Buffer.
End RedirectedFacts.

(** ** What a call of [bind] does *)

Lemma decide_moves (environ : string -> option string) (family askport : Z) :
  do_move (decide environ family askport) = true ->
  (family = AF_INET \/ family = AF_INET6) /\
  exists new,
    environ "REBIND_NEW_PORT"%string = Some new /\
    newport (decide environ family askport) =
    CInt.to_int (fst (Strtol.strtol new)).
Proof.
  unfold decide.
  destruct ((family =? AF_INET) || (family =? AF_INET6)) eqn:F;
    [|discriminate].
  apply family_test in F. intros D. split; [assumption|].
  revert D. unfold parse_ports.
  destruct (environ "REBIND_OLD_PORT"%string) as [old|]; [|discriminate].
  destruct (environ "REBIND_NEW_PORT"%string) as [new|]; [|discriminate].
  destruct (nonempty old && nonempty new); [|discriminate].
  intros _. exists new. split; [reflexivity|].
  now destruct (Strtol.strtol old) as [l1 end1], (Strtol.strtol new) as [l2 end2].
Qed.

Section Calls.

Context {K : Type}.
Variable dlsym_next_bind : option (fnptr K).
Variable set_errno : Z -> K -> K.
Variable setsockopt : Z -> Z -> Z -> list byte -> K -> Z * K.
Variables (sockfd : Z) (a : nat) (addrlen : N) (s : process K) (f : fnptr K).

Hypothesis func_resolves : resolved dlsym_next_bind s = Some f.

(** C2: an IPv4 request for the configured old port reaches the real bind
    with the address field 127.0.0.1 and the port field the configured new
    port in network byte order, whatever address was asked for; what the real
    bind answers is the result. *)
Theorem ipv4_match_binds_loopback :
  sa_family (object s a) = AF_INET ->
  (8 <= List.length (object s a))%nat ->
  (N.to_nat (cap addrlen) <= List.length (object s a))%nat ->
  do_move (decide (environ s) AF_INET (sin_port (object s a))) = true ->
  exists (new : string) (buf : list byte),
    environ s "REBIND_NEW_PORT"%string = Some new /\
    trace (final (bind dlsym_next_bind set_errno setsockopt sockfd (Some a) addrlen s)) =
      trace s ++ [Call_func sockfd (Some Addr_tmp) buf (cap addrlen)] /\
    result (bind dlsym_next_bind set_errno setsockopt sockfd (Some a) addrlen s) =
      Some (fst (f sockfd (Some Addr_tmp) (cap addrlen)
                   (Memory (caller (mem s)) buf)
                   (parsed set_errno (environ s) AF_INET (os s)))) /\
    field buf offsetof_sin_addr 4 = map byte.of_Z [127; 0; 0; 1] /\
    field buf offsetof_sin_port 2 = CInt.htons (fst (Strtol.strtol new)).
Proof.
  unfold object. intros F I C D.
  destruct (decide_moves _ _ _ D) as (_ & new & E & N).
  exists new, (redirected AF_INET
                 (newport (decide (environ s) AF_INET (sin_port (caller (mem s) a))))
                 (fresh s) (caller (mem s) a) (N.to_nat (cap addrlen))).
  rewrite (bind_moves_inet dlsym_next_bind set_errno setsockopt sockfd a addrlen s f
             func_resolves F I C D).
  cbn [final result trace]. repeat split; try assumption.
  - apply RedirectedFacts.redirected_inet_addr;
      auto using BufferFacts.length_fresh, cap_le.
  - rewrite RedirectedFacts.redirected_port
      by auto using BufferFacts.length_fresh, cap_le.
    rewrite N. apply CIntFacts.htons_to_int.
Qed.

(** C3: an IPv6 request for the configured old port reaches the real bind
    with the address ::ffff:127.0.0.1, the port field the configured new port
    in network byte order and the scope id zero. *)
Theorem ipv6_match_binds_mapped_loopback :
  sa_family (object s a) = AF_INET6 ->
  (24 <= List.length (object s a))%nat ->
  (N.to_nat (cap addrlen) <= List.length (object s a))%nat ->
  do_move (decide (environ s) AF_INET6 (sin_port (object s a))) = true ->
  exists (new : string) (pre : list call) (buf : list byte),
    environ s "REBIND_NEW_PORT"%string = Some new /\
    trace (final (bind dlsym_next_bind set_errno setsockopt sockfd (Some a) addrlen s)) =
      pre ++ [Call_func sockfd (Some Addr_tmp) buf (cap addrlen)] /\
    field buf offsetof_sin6_addr 16 =
      map byte.of_Z [0; 0; 0; 0; 0; 0; 0; 0; 0; 0; 0xff; 0xff; 127; 0; 0; 1] /\
    field buf offsetof_sin6_port 2 = CInt.htons (fst (Strtol.strtol new)) /\
    field buf offsetof_sin6_scope_id 4 = map byte.of_Z [0; 0; 0; 0].
Proof.
  unfold object. intros F I C D.
  destruct (decide_moves _ _ _ D) as (_ & new & E & N).
  exists new,
    (trace s ++ [Call_setsockopt sockfd IPPROTO_IPV6 IPV6_V6ONLY (CInt.store32 0)]),
    (redirected AF_INET6
       (newport (decide (environ s) AF_INET6 (sin_port (caller (mem s) a))))
       (fresh s) (caller (mem s) a) (N.to_nat (cap addrlen))).
  rewrite (bind_moves_inet6 dlsym_next_bind set_errno setsockopt sockfd a addrlen s f
             func_resolves F I C D).
  cbn [final result trace]. rewrite <- app_assoc. repeat split; try assumption.
  - apply RedirectedFacts.redirected_inet6_addr;
      auto using BufferFacts.length_fresh, cap_le. discriminate.
  - unfold offsetof_sin6_port. fold offsetof_sin_port.
    rewrite RedirectedFacts.redirected_port
      by auto using BufferFacts.length_fresh, cap_le.
    rewrite N. apply CIntFacts.htons_to_int.
  - apply RedirectedFacts.redirected_inet6_scope;
      auto using BufferFacts.length_fresh, cap_le. discriminate.
Qed.

End Calls.

Lemma ipv4_match_binds_loopback_witness :
  exists (new : string) (buf : list byte),
    environ Sample.ipv4_8080 "REBIND_NEW_PORT"%string = Some new /\
    trace (final (bind (Some Sample.busy) Sample.set_errno Sample.no_option 3 (Some O) 16
                    Sample.ipv4_8080)) =
      trace Sample.ipv4_8080 ++ [Call_func 3 (Some Addr_tmp) buf (cap 16)] /\
    result (bind (Some Sample.busy) Sample.set_errno Sample.no_option 3 (Some O) 16
              Sample.ipv4_8080) =
      Some (fst (Sample.busy 3 (Some Addr_tmp) (cap 16)
                   (Memory (caller (mem Sample.ipv4_8080)) buf)
                   (parsed Sample.set_errno (environ Sample.ipv4_8080) AF_INET
                      (os Sample.ipv4_8080)))) /\
    field buf offsetof_sin_addr 4 = map byte.of_Z [127; 0; 0; 1] /\
    field buf offsetof_sin_port 2 = CInt.htons (fst (Strtol.strtol new)).
Proof.
  apply (ipv4_match_binds_loopback (Some Sample.busy) Sample.set_errno Sample.no_option 3 O 16
           Sample.ipv4_8080 Sample.busy).
  - reflexivity.
  - reflexivity.
  - cbn. lia.
  - cbn. lia.
  - vm_compute. reflexivity.
Defined.

Lemma ipv6_match_binds_mapped_loopback_witness :
  exists (new : string) (pre : list call) (buf : list byte),
    environ Sample.ipv6_80 "REBIND_NEW_PORT"%string = Some new /\
    trace (final (bind (Some Sample.busy) Sample.set_errno Sample.no_option 3 (Some O) 28
                    Sample.ipv6_80)) =
      pre ++ [Call_func 3 (Some Addr_tmp) buf (cap 28)] /\
    field buf offsetof_sin6_addr 16 =
      map byte.of_Z [0; 0; 0; 0; 0; 0; 0; 0; 0; 0; 0xff; 0xff; 127; 0; 0; 1] /\
    field buf offsetof_sin6_port 2 = CInt.htons (fst (Strtol.strtol new)) /\
    field buf offsetof_sin6_scope_id 4 = map byte.of_Z [0; 0; 0; 0].
Proof.
  apply (ipv6_match_binds_mapped_loopback (Some Sample.busy) Sample.set_errno Sample.no_option
           3 O 28 Sample.ipv6_80 Sample.busy).
  - reflexivity.
  - reflexivity.
  - cbn. lia.
  - cbn. lia.
  - vm_compute. reflexivity.
Defined.

Section Moves.

Context {K : Type}.
Variable dlsym_next_bind : option (fnptr K).
Variable set_errno : Z -> K -> K.
Variable setsockopt : Z -> Z -> Z -> list byte -> K -> Z * K.
Variables (sockfd : Z) (a : nat) (addrlen : N) (s : process K) (f : fnptr K).

Hypothesis func_resolves : resolved dlsym_next_bind s = Some f.
Hypothesis readable :
  (inspected (sa_family (object s a)) <= List.length (object s a))%nat.
Hypothesis copied :
  (N.to_nat (cap addrlen) <= List.length (object s a))%nat.
Hypothesis selected :
  do_move (decide (environ s) (sa_family (object s a))
             (sin_port (object s a))) = true.

(** A redirected call, for either family. *)
Lemma bind_moves :
  let d := decide (environ s) (sa_family (object s a)) (sin_port (object s a)) in
  let buf := redirected (sa_family (object s a)) (newport d) (fresh s)
               (object s a) (N.to_nat (cap addrlen)) in
  let m := Memory (caller (mem s)) buf in
  exists (pre : list call) (k : K),
    bind dlsym_next_bind set_errno setsockopt sockfd (Some a) addrlen s =
    Returned (fst (f sockfd (Some Addr_tmp) (cap addrlen) m k))
      (Process (Some f) (environ s) m (stack s)
         (snd (f sockfd (Some Addr_tmp) (cap addrlen) m k))
         (pre ++ [Call_func sockfd (Some Addr_tmp) buf (cap addrlen)])).
Proof.
  intros d buf m. subst d buf m. revert readable copied selected.
  unfold object, inspected. intros I C D.
  destruct (decide_moves _ _ _ D) as ([F | F] & _); revert I D; rewrite F;
    intros I D.
  - exists (trace s), (parsed set_errno (environ s) AF_INET (os s)).
    apply (bind_moves_inet dlsym_next_bind set_errno setsockopt sockfd a addrlen s f);
      auto.
  - exists (trace s ++ [Call_setsockopt sockfd IPPROTO_IPV6 IPV6_V6ONLY
                          (CInt.store32 0)]),
      (snd (setsockopt sockfd IPPROTO_IPV6 IPV6_V6ONLY (CInt.store32 0)
              (parsed set_errno (environ s) AF_INET6 (os s)))).
    rewrite <- app_assoc.
    apply (bind_moves_inet6 dlsym_next_bind set_errno setsockopt sockfd a addrlen s f);
      auto.
Qed.

(** C7: a redirected call copies the caller's structure into [addr_tmp],
    which has the size of [struct sockaddr_storage] and so holds either
    family's structure; the count copied and the length handed to the real
    bind are both the declared length capped at that size, the capacity itself
    when the declared length is larger; the call goes on to the real bind and
    returns what it answers. *)
Theorem redirect_copies_capped_length :
  exists (pre : list call) (buf : list byte) (k : K),
    trace (final (bind dlsym_next_bind set_errno setsockopt sockfd (Some a) addrlen s)) =
      pre ++ [Call_func sockfd (Some Addr_tmp) buf (cap addrlen)] /\
    result (bind dlsym_next_bind set_errno setsockopt sockfd (Some a) addrlen s) =
      Some (fst (f sockfd (Some Addr_tmp) (cap addrlen)
                   (Memory (caller (mem s)) buf) k)) /\
    List.length buf = sizeof_sockaddr_storage /\
    (sizeof_sockaddr_in <= sizeof_sockaddr_storage)%nat /\
    (sizeof_sockaddr_in6 <= sizeof_sockaddr_storage)%nat /\
    (forall i : nat,
        rewritten (sa_family (object s a)) i = false ->
        nth_error buf i =
        if (i <? N.to_nat (cap addrlen))%nat
        then nth_error (object s a) i else nth_error (fresh s) i) /\
    cap addrlen = N.min addrlen (N.of_nat sizeof_sockaddr_storage) /\
    ((N.of_nat sizeof_sockaddr_storage < addrlen)%N ->
     cap addrlen = N.of_nat sizeof_sockaddr_storage).
Proof.
  destruct bind_moves as (pre & k & E). rewrite E. cbn [final result trace].
  eexists pre, _, k. split; [reflexivity|]. split; [reflexivity|].
  pose proof (cap_le addrlen) as C.
  split; [|split; [|split; [|split; [|split]]]].
  - apply RedirectedFacts.length_redirected;
      auto using BufferFacts.length_fresh.
  - unfold sizeof_sockaddr_in, sizeof_sockaddr_storage. lia.
  - unfold sizeof_sockaddr_in6, sizeof_sockaddr_storage. lia.
  - intros i R. apply RedirectedFacts.redirected_elsewhere;
      auto using BufferFacts.length_fresh.
  - unfold cap. destruct (N.ltb_spec (N.of_nat sizeof_sockaddr_storage) addrlen); lia.
  - intros L. unfold cap. apply N.ltb_lt in L. now rewrite L.
Qed.

(** C10: the port handed to the real bind by a redirected call is what
    [strtol] made of REBIND_NEW_PORT, modulo 2^16. *)
Theorem new_port_is_taken_modulo_65536 :
  exists (new : string) (pre : list call) (buf : list byte),
    environ s "REBIND_NEW_PORT"%string = Some new /\
    trace (final (bind dlsym_next_bind set_errno setsockopt sockfd (Some a) addrlen s)) =
      pre ++ [Call_func sockfd (Some Addr_tmp) buf (cap addrlen)] /\
    sin_port buf = fst (Strtol.strtol new) mod 2 ^ 16.
Proof.
  destruct bind_moves as (pre & k & E). rewrite E. cbn [final trace].
  destruct (decide_moves _ _ _ selected) as (_ & new & En & N).
  eexists new, pre, _. split; [exact En|]. split; [reflexivity|].
  pose proof (cap_le addrlen) as C.
  rewrite N. unfold sin_port.
  rewrite RedirectedFacts.redirected_port by auto using BufferFacts.length_fresh.
  rewrite CIntFacts.ntohs_htons. apply CIntFacts.to_int_mod.
Qed.

End Moves.

Lemma redirect_copies_capped_length_witness :
  exists (pre : list call) (buf : list byte) (k : Z),
    trace (final (bind (Some Sample.busy) Sample.set_errno Sample.no_option 3 (Some O) 200
                    Sample.ipv4_long)) =
      pre ++ [Call_func 3 (Some Addr_tmp) buf (cap 200)] /\
    result (bind (Some Sample.busy) Sample.set_errno Sample.no_option 3 (Some O) 200
              Sample.ipv4_long) =
      Some (fst (Sample.busy 3 (Some Addr_tmp) (cap 200)
                   (Memory (caller (mem Sample.ipv4_long)) buf) k)) /\
    List.length buf = sizeof_sockaddr_storage /\
    (sizeof_sockaddr_in <= sizeof_sockaddr_storage)%nat /\
    (sizeof_sockaddr_in6 <= sizeof_sockaddr_storage)%nat /\
    (forall i : nat,
        rewritten (sa_family (object Sample.ipv4_long O)) i = false ->
        nth_error buf i =
        if (i <? N.to_nat (cap 200))%nat
        then nth_error (object Sample.ipv4_long O) i
        else nth_error (fresh Sample.ipv4_long) i) /\
    cap 200 = N.min 200 (N.of_nat sizeof_sockaddr_storage) /\
    ((N.of_nat sizeof_sockaddr_storage < 200)%N ->
     cap 200 = N.of_nat sizeof_sockaddr_storage).
Proof.
  apply (redirect_copies_capped_length (Some Sample.busy) Sample.set_errno Sample.no_option 3 O
           200 Sample.ipv4_long Sample.busy).
  - reflexivity.
  - cbn. lia.
  - cbn. lia.
  - vm_compute. reflexivity.
Defined.

Lemma new_port_is_taken_modulo_65536_witness :
  exists (new : string) (pre : list call) (buf : list byte),
    environ Sample.ipv4_wrap "REBIND_NEW_PORT"%string = Some new /\
    trace (final (bind (Some Sample.busy) Sample.set_errno Sample.no_option 3 (Some O) 16
                    Sample.ipv4_wrap)) =
      pre ++ [Call_func 3 (Some Addr_tmp) buf (cap 16)] /\
    sin_port buf = fst (Strtol.strtol new) mod 2 ^ 16.
Proof.
  apply (new_port_is_taken_modulo_65536 (Some Sample.busy) Sample.set_errno Sample.no_option 3 O
           16 Sample.ipv4_wrap Sample.busy).
  - reflexivity.
  - cbn. lia.
  - cbn. lia.
  - vm_compute. reflexivity.
Defined.

(** REBIND_NEW_PORT=65536 binds port 0. *)
Example new_port_65536_binds_port_0 :
  exists buf : list byte,
    trace (final (bind (Some Sample.busy) Sample.set_errno Sample.no_option 3 (Some O) 16
                    Sample.ipv4_wrap)) =
      [Call_func 3 (Some Addr_tmp) buf 16] /\
    sin_port buf = 0.
Proof.
  eexists. split; vm_compute; reflexivity.
Qed.

(** ** The option IPV6_V6ONLY *)

Section V6only.

Context {K : Type}.
Variable dlsym_next_bind : option (fnptr K).
Variable set_errno : Z -> K -> K.
Variable setsockopt : Z -> Z -> Z -> list byte -> K -> Z * K.
Variables (sockfd : Z) (a : nat) (addrlen : N) (s : process K) (f : fnptr K).

(** C8: a redirected IPv6 call first calls [setsockopt] to clear
    IPV6_V6ONLY, then the real bind, in the state [setsockopt] left; it
    returns what the real bind answers, and what [setsockopt] answered makes
    no difference to the call. *)
Theorem v6only_failure_is_ignored :
  resolved dlsym_next_bind s = Some f ->
  sa_family (object s a) = AF_INET6 ->
  (24 <= List.length (object s a))%nat ->
  (N.to_nat (cap addrlen) <= List.length (object s a))%nat ->
  do_move (decide (environ s) AF_INET6 (sin_port (object s a))) = true ->
  (exists buf : list byte,
     let optval := map byte.of_Z [0; 0; 0; 0] in
     let k := snd (setsockopt sockfd IPPROTO_IPV6 IPV6_V6ONLY optval
                     (parsed set_errno (environ s) AF_INET6 (os s))) in
     let rk := f sockfd (Some Addr_tmp) (cap addrlen)
                 (Memory (caller (mem s)) buf) k in
     trace (final (bind dlsym_next_bind set_errno setsockopt sockfd (Some a) addrlen s)) =
       trace s ++ [Call_setsockopt sockfd IPPROTO_IPV6 IPV6_V6ONLY optval;
                   Call_func sockfd (Some Addr_tmp) buf (cap addrlen)] /\
     result (bind dlsym_next_bind set_errno setsockopt sockfd (Some a) addrlen s) =
       Some (fst rk) /\
     os (final (bind dlsym_next_bind set_errno setsockopt sockfd (Some a) addrlen s)) =
       snd rk) /\
  (forall recode : Z -> Z,
     bind dlsym_next_bind set_errno (recoded recode setsockopt) sockfd (Some a) addrlen s =
     bind dlsym_next_bind set_errno setsockopt sockfd (Some a) addrlen s).
Proof.
  unfold object. intros R F I C D. split.
  - eexists. cbv zeta.
    rewrite (bind_moves_inet6 dlsym_next_bind set_errno setsockopt sockfd a addrlen s f
               R F I C D).
    cbn [final result trace os]. repeat split; reflexivity.
  - intros recode.
    rewrite (bind_moves_inet6 dlsym_next_bind set_errno setsockopt sockfd a addrlen s f
               R F I C D).
    rewrite (bind_moves_inet6 dlsym_next_bind set_errno (recoded recode setsockopt)
               sockfd a addrlen s f R F I C D).
    reflexivity.
Qed.

End V6only.

Lemma v6only_failure_is_ignored_witness :
  (exists buf : list byte,
     let optval := map byte.of_Z [0; 0; 0; 0] in
     let k := snd (Sample.no_option 3 IPPROTO_IPV6 IPV6_V6ONLY optval
                     (parsed Sample.set_errno (environ Sample.ipv6_80) AF_INET6
                        (os Sample.ipv6_80))) in
     let rk := Sample.busy 3 (Some Addr_tmp) (cap 28)
                 (Memory (caller (mem Sample.ipv6_80)) buf) k in
     trace (final (bind (Some Sample.busy) Sample.set_errno Sample.no_option 3 (Some O) 28
                     Sample.ipv6_80)) =
       trace Sample.ipv6_80 ++
       [Call_setsockopt 3 IPPROTO_IPV6 IPV6_V6ONLY optval;
        Call_func 3 (Some Addr_tmp) buf (cap 28)] /\
     result (bind (Some Sample.busy) Sample.set_errno Sample.no_option 3 (Some O) 28
               Sample.ipv6_80) = Some (fst rk) /\
     os (final (bind (Some Sample.busy) Sample.set_errno Sample.no_option 3 (Some O) 28
                  Sample.ipv6_80)) = snd rk) /\
  (forall recode : Z -> Z,
     bind (Some Sample.busy) Sample.set_errno (recoded recode Sample.no_option) 3 (Some O) 28
       Sample.ipv6_80 =
     bind (Some Sample.busy) Sample.set_errno Sample.no_option 3 (Some O) 28 Sample.ipv6_80).
Proof.
  apply (v6only_failure_is_ignored (Some Sample.busy) Sample.set_errno Sample.no_option 3 O 28
           Sample.ipv6_80 Sample.busy).
  - reflexivity.
  - reflexivity.
  - cbn. lia.
  - cbn. lia.
  - vm_compute. reflexivity.
Defined.

(** ** A null address *)

Section Null.

Context {K : Type}.
Variable dlsym_next_bind : option (fnptr K).
Variable set_errno : Z -> K -> K.
Variable setsockopt : Z -> Z -> Z -> list byte -> K -> Z * K.
Variables (sockfd : Z) (addrlen : N) (s : process K).

(** C4, at a null address: no call is made, the real bind is never reached
    and nothing is returned. *)
Theorem null_address_is_not_passed_through :
  trace (final (bind dlsym_next_bind set_errno setsockopt sockfd None addrlen s)) = trace s /\
  result (bind dlsym_next_bind set_errno setsockopt sockfd None addrlen s) = None.
Proof.
  rewrite bind_null. split; reflexivity.
Qed.

(** C5, at a null address: the family is AF_UNSPEC, which is not AF_INET, so
    line 63 reads [sin6_port] through the null pointer and the call stops
    there. *)
Theorem null_address_faults :
  exists p : process K,
    bind dlsym_next_bind set_errno setsockopt sockfd None addrlen s = Faulted p /\
    inspect NULL AF_UNSPEC p = Faulted p.
Proof.
  rewrite bind_null. eexists. split; reflexivity.
Qed.

End Null.

(** ** The caller's memory *)

Section Frame.

Context {K : Type}.
Variable dlsym_next_bind : option (fnptr K).
Variable set_errno : Z -> K -> K.
Variable setsockopt : Z -> Z -> Z -> list byte -> K -> Z * K.

Lemma keeps_ret {A : Type} (x : A) : keeps_caller (@ret K A x).
Proof. intros s. reflexivity. Qed.

Lemma keeps_mbind {A B : Type} (m : M K A) (k : A -> M K B) :
  keeps_caller m -> (forall x, keeps_caller (k x)) -> keeps_caller (mbind m k).
Proof.
  intros Hm Hk s. unfold mbind. specialize (Hm s).
  destruct (m s) as [x p | p]; cbn [final] in *.
  - now rewrite Hk.
  - assumption.
Qed.

Lemma keeps_load (p : pointer) (off len : nat) :
  keeps_caller (@load K p off len).
Proof.
  intros s. unfold load. destruct p as [r|]; [|reflexivity].
  now destruct (off + len <=? List.length (bytes_at (mem s) r))%nat.
Qed.

Lemma keeps_store_addr_tmp (off : nat) (bs : list byte) :
  keeps_caller (@store K (Some Addr_tmp) off bs).
Proof.
  intros s. unfold store.
  now destruct (off + List.length bs <=? List.length (bytes_at (mem s) Addr_tmp))%nat.
Qed.

Lemma keeps_enter : keeps_caller (@enter K).
Proof. intros s. reflexivity. Qed.

Lemma keeps_resolve : keeps_caller (resolve dlsym_next_bind).
Proof. intros s. unfold resolve. now destruct (func s). Qed.

Lemma keeps_getenv (name : string) : keeps_caller (@getenv K name).
Proof. intros s. reflexivity. Qed.

Lemma keeps_call_func (sockfd : Z) (p : pointer) (addrlen : N) :
  keeps_caller (@call_func K sockfd p addrlen).
Proof.
  intros s. unfold call_func. destruct (func s) as [f|]; [|reflexivity].
  now destruct (f sockfd p addrlen (mem s) (os s)).
Qed.

Lemma keeps_call_setsockopt (sockfd level optname : Z) (optval : list byte) :
  keeps_caller (call_setsockopt setsockopt sockfd level optname optval).
Proof.
  intros s. unfold call_setsockopt.
  now destruct (setsockopt sockfd level optname optval (os s)).
Qed.

Ltac keeps :=
  repeat first
    [ apply keeps_mbind; [|intros ?]
    | apply keeps_ret
    | apply keeps_load
    | apply keeps_store_addr_tmp
    | apply keeps_enter
    | apply keeps_resolve
    | apply keeps_getenv
    | apply keeps_call_func
    | apply keeps_call_setsockopt ].

Lemma keeps_inspect (p : pointer) (family : Z) :
  keeps_caller (@inspect K p family).
Proof.
  unfold inspect, inet_ntop. destruct (family =? AF_INET); keeps.
Qed.

Lemma keeps_strtol (nptr : string) : keeps_caller (strtol set_errno nptr).
Proof. intros s. reflexivity. Qed.

Lemma keeps_determine (family askport : Z) :
  keeps_caller (determine set_errno family askport).
Proof.
  unfold determine.
  destruct ((family =? AF_INET) || (family =? AF_INET6));
    [|apply keeps_ret].
  apply keeps_mbind; [apply keeps_getenv | intros [old|]];
    (apply keeps_mbind; [apply keeps_getenv | intros [new|]]);
    try apply keeps_ret.
  destruct (nonempty old && nonempty new); [|apply keeps_ret].
  apply keeps_mbind; [apply keeps_strtol | intros r1].
  apply keeps_mbind; [apply keeps_strtol | intros r2].
  apply keeps_ret.
Qed.

Lemma keeps_move (sockfd : Z) (p : pointer) (addrlen : N)
  (family newport : Z) :
  keeps_caller (move setsockopt sockfd p addrlen family newport).
Proof.
  unfold move, memcpy. destruct (family =? AF_INET); keeps.
Qed.

Lemma keeps_bind (sockfd : Z) (addr : option nat) (addrlen : N) :
  keeps_caller (bind dlsym_next_bind set_errno setsockopt sockfd addr addrlen).
Proof.
  unfold bind. apply keeps_mbind; [apply keeps_enter | intros _].
  apply keeps_mbind; [destruct addr; keeps | intros family].
  apply keeps_mbind; [apply keeps_resolve | intros _].
  apply keeps_mbind; [apply keeps_inspect | intros askport].
  apply keeps_mbind; [apply keeps_determine | intros d].
  destruct (negb (do_move d)); [apply keeps_call_func | apply keeps_move].
Qed.

(** C6: however a call of [bind] ends, every object of the caller holds the
    bytes it held on entry; the stores of lines 101-117 all go to [addr_tmp]. *)
Theorem bind_never_writes_caller (sockfd : Z) (addr : option nat)
  (addrlen : N) (s : process K) (a : nat) :
  object (final (bind dlsym_next_bind set_errno setsockopt sockfd addr addrlen s)) a =
  object s a.
Proof.
  unfold object. now rewrite keeps_bind.
Qed.

End Frame.

(** ** The environment, call after call *)

Lemma delegated_last (t : list call) (sockfd : Z) (p : pointer)
  (bs : list byte) (addrlen : N) :
  delegated (t ++ [Call_func sockfd p bs addrlen]) = Some p.
Proof.
  unfold delegated. now rewrite last_last.
Qed.

Section Environment.

Context {K : Type}.
Variable dlsym_next_bind : option (fnptr K).
Variable set_errno : Z -> K -> K.
Variable setsockopt : Z -> Z -> Z -> list byte -> K -> Z * K.
Variables (sockfd : Z) (a : nat) (addrlen : N) (f : fnptr K).

(** A call on an address that can be read returns, keeps [func], the
    environment and the caller's memory, and has handed to [func] the pointer
    the decision asks for. *)
Lemma bind_delegates (s : process K) :
  resolved dlsym_next_bind s = Some f ->
  (inspected (sa_family (object s a)) <= List.length (object s a))%nat ->
  (N.to_nat (cap addrlen) <= List.length (object s a))%nat ->
  exists (r : Z) (s' : process K),
    bind dlsym_next_bind set_errno setsockopt sockfd (Some a) addrlen s = Returned r s' /\
    func s' = Some f /\ environ s' = environ s /\
    caller (mem s') = caller (mem s) /\
    delegated (trace s') =
    Some (if do_move (decide (environ s) (sa_family (object s a))
                        (sin_port (object s a)))
          then Some Addr_tmp else Some (Caller a)).
Proof.
  intros R I C.
  destruct (do_move (decide (environ s) (sa_family (object s a))
                       (sin_port (object s a)))) eqn:D.
  - destruct (bind_moves dlsym_next_bind set_errno setsockopt sockfd a addrlen s f
                R I C D) as (pre & k & E).
    rewrite E. eexists _, _. split; [reflexivity|].
    cbn [func environ mem caller trace]. rewrite delegated_last. auto.
  - unfold object in *.
    rewrite (bind_pass_through dlsym_next_bind set_errno setsockopt sockfd a addrlen s f
               R I D).
    eexists _, _. split; [reflexivity|].
    cbn [func environ mem caller trace]. rewrite delegated_last. auto.
Qed.

(** The decision is what makes [bind] hand [addr_tmp] to [func]. *)
Lemma bind_redirects_iff (s : process K) :
  resolved dlsym_next_bind s = Some f ->
  (inspected (sa_family (object s a)) <= List.length (object s a))%nat ->
  (N.to_nat (cap addrlen) <= List.length (object s a))%nat ->
  delegated
    (trace (final (bind dlsym_next_bind set_errno setsockopt sockfd (Some a)
                     addrlen s))) = Some (Some Addr_tmp) <->
  do_move (decide (environ s) (sa_family (object s a)) (sin_port (object s a)))
  = true.
Proof.
  intros R I C.
  destruct (bind_delegates s R I C) as (r & s' & E & _ & _ & _ & D).
  rewrite E. cbn [final]. rewrite D.
  destruct (do_move _); split; congruence.
Qed.

(** C9: two calls with the same request, the environment being [e1] at the
    first and [e2] at the second: each hands to [func] the pointer that the
    environment of its own time selects, [addr_tmp] when it selects
    redirection and the caller's pointer when it does not. *)
Theorem environment_is_read_at_each_call (s : process K)
  (e1 e2 : string -> option string) :
  resolved dlsym_next_bind s = Some f ->
  (inspected (sa_family (object s a)) <= List.length (object s a))%nat ->
  (N.to_nat (cap addrlen) <= List.length (object s a))%nat ->
  delegated
    (trace (final (bind dlsym_next_bind set_errno setsockopt sockfd (Some a) addrlen
                     (set_environ e1 s)))) =
  Some (if do_move (decide e1 (sa_family (object s a)) (sin_port (object s a)))
        then Some Addr_tmp else Some (Caller a)) /\
  delegated
    (trace (final (bind dlsym_next_bind set_errno setsockopt sockfd (Some a) addrlen
                     (set_environ e2
                        (final (bind dlsym_next_bind set_errno setsockopt sockfd (Some a)
                                  addrlen (set_environ e1 s))))))) =
  Some (if do_move (decide e2 (sa_family (object s a)) (sin_port (object s a)))
        then Some Addr_tmp else Some (Caller a)).
Proof.
  intros R I C.
  destruct (bind_delegates (set_environ e1 s) R I C)
    as (r1 & s1 & E1 & F1 & _ & M1 & D1).
  rewrite E1. cbn [final]. split; [exact D1|].
  assert (O : object (set_environ e2 s1) a = object s a)
    by (unfold object; cbn [set_environ mem]; now rewrite M1).
  assert (R2 : resolved dlsym_next_bind (set_environ e2 s1) = Some f)
    by (unfold resolved; cbn [set_environ func]; now rewrite F1).
  destruct (bind_delegates (set_environ e2 s1) R2) as (r2 & s2 & E2 & _ & _ & _ & D2).
  - now rewrite O.
  - now rewrite O.
  - rewrite E2. cbn [final]. rewrite D2, O. reflexivity.
Qed.

End Environment.

Lemma environment_is_read_at_each_call_witness :
  delegated
    (trace (final (bind (Some Sample.busy) Sample.set_errno Sample.no_option 3 (Some O) 16
                     (set_environ
                        (Sample.env_of (Some "8080"%string) (Some "9090"%string))
                        Sample.ipv4_8080)))) =
  Some (if do_move (decide (Sample.env_of (Some "8080"%string) (Some "9090"%string))
                      (sa_family (object Sample.ipv4_8080 O))
                      (sin_port (object Sample.ipv4_8080 O)))
        then Some Addr_tmp else Some (Caller O)) /\
  delegated
    (trace (final (bind (Some Sample.busy) Sample.set_errno Sample.no_option 3 (Some O) 16
                     (set_environ
                        (Sample.env_of (Some "8081"%string) (Some "9090"%string))
                        (final (bind (Some Sample.busy) Sample.set_errno Sample.no_option 3
                                  (Some O) 16
                                  (set_environ
                                     (Sample.env_of (Some "8080"%string)
                                        (Some "9090"%string))
                                     Sample.ipv4_8080))))))) =
  Some (if do_move (decide (Sample.env_of (Some "8081"%string) (Some "9090"%string))
                      (sa_family (object Sample.ipv4_8080 O))
                      (sin_port (object Sample.ipv4_8080 O)))
        then Some Addr_tmp else Some (Caller O)).
Proof.
  apply (environment_is_read_at_each_call (Some Sample.busy) Sample.set_errno Sample.no_option
           3 O 16 Sample.busy Sample.ipv4_8080).
  - reflexivity.
  - cbn. lia.
  - cbn. lia.
Defined.

(** With 8080 moved at the first call and 8081 at the second, the first call
    is redirected and the second is passed through. *)
Example environment_change_is_honoured :
  let first := bind (Some Sample.busy) Sample.set_errno Sample.no_option 3 (Some O) 16
                 Sample.ipv4_8080 in
  let second := bind (Some Sample.busy) Sample.set_errno Sample.no_option 3 (Some O) 16
                  (set_environ
                     (Sample.env_of (Some "8081"%string) (Some "9090"%string))
                     (final first)) in
  delegated (trace (final first)) = Some (Some Addr_tmp) /\
  delegated (trace (final second)) = Some (Some (Caller O)).
Proof.
  split; vm_compute; reflexivity.
Qed.

(** * More of [bind] *)

(** ** Calls that are passed through *)

Lemma decide_other_family (environ : string -> option string)
  (family askport : Z) :
  family <> AF_INET -> family <> AF_INET6 ->
  decide environ family askport = Decision false 0 0.
Proof.
  intros H4 H6. unfold decide.
  apply Z.eqb_neq in H4. apply Z.eqb_neq in H6. now rewrite H4, H6.
Qed.

Lemma parsed_other_family {K : Type} (set_errno : Z -> K -> K)
  (environ : string -> option string) (family : Z) (k : K) :
  family <> AF_INET -> family <> AF_INET6 ->
  parsed set_errno environ family k = k.
Proof.
  intros H4 H6. unfold parsed.
  apply Z.eqb_neq in H4. apply Z.eqb_neq in H6. now rewrite H4, H6.
Qed.

Lemma decide_unset (environ : string -> option string) (family askport : Z) :
  unset (environ "REBIND_OLD_PORT"%string)
  || unset (environ "REBIND_NEW_PORT"%string) = true ->
  do_move (decide environ family askport) = false.
Proof.
  unfold decide, parse_ports, unset.
  destruct ((family =? AF_INET) || (family =? AF_INET6)); [|reflexivity].
  destruct (environ "REBIND_OLD_PORT"%string) as [old|]; [|reflexivity].
  destruct (environ "REBIND_NEW_PORT"%string) as [new|]; [|reflexivity].
  destruct (nonempty old), (nonempty new); try reflexivity. discriminate.
Qed.

Lemma parsed_unset {K : Type} (set_errno : Z -> K -> K)
  (environ : string -> option string) (family : Z) (k : K) :
  unset (environ "REBIND_OLD_PORT"%string)
  || unset (environ "REBIND_NEW_PORT"%string) = true ->
  parsed set_errno environ family k = k.
Proof.
  unfold parsed, unset.
  destruct ((family =? AF_INET) || (family =? AF_INET6)); [|reflexivity].
  destruct (environ "REBIND_OLD_PORT"%string) as [old|]; [|reflexivity].
  destruct (environ "REBIND_NEW_PORT"%string) as [new|]; [|reflexivity].
  destruct (nonempty old), (nonempty new); try reflexivity. discriminate.
Qed.

Lemma decide_port_zero (environ : string -> option string) (family : Z) :
  do_move (decide environ family 0) = false.
Proof.
  destruct (do_move (decide environ family 0)) eqn:D; [|reflexivity].
  unfold decide in D.
  destruct ((family =? AF_INET) || (family =? AF_INET6)); [|discriminate D].
  apply parse_ports_true in D.
  destruct D as (old & new & _ & _ & _ & _ & _ & _ & Z1 & _ & A). contradiction.
Qed.

Section PassThrough.

Context {K : Type}.
Variable dlsym_next_bind : option (fnptr K).
Variable set_errno : Z -> K -> K.
Variable setsockopt : Z -> Z -> Z -> list byte -> K -> Z * K.
Variables (sockfd : Z) (a : nat) (addrlen : N) (s : process K) (f : fnptr K).

Hypothesis func_resolves : resolved dlsym_next_bind s = Some f.

(** X1: a call that is not selected is passed right through (lines 86-91):
    the one call made is [func] on the caller's own pointer with the length as
    given, not capped, and [bind] returns what [func] answers. *)
Theorem unselected_call_passes_through :
  (inspected (sa_family (object s a)) <= List.length (object s a))%nat ->
  do_move (decide (environ s) (sa_family (object s a))
             (sin_port (object s a))) = false ->
  passes_through
    (bind dlsym_next_bind set_errno setsockopt sockfd (Some a) addrlen s)
    s f sockfd a addrlen
    (parsed set_errno (environ s) (sa_family (object s a)) (os s)).
Proof.
  unfold object, passes_through. intros I D.
  rewrite (bind_pass_through dlsym_next_bind set_errno setsockopt sockfd a
             addrlen s f func_resolves I D).
  cbn [final result trace os]. repeat split; reflexivity.
Qed.

(** X2: an address of a family other than AF_INET and AF_INET6 is passed
    through whatever the environment holds (line 71); the environment is not
    even parsed, so [func] runs in the kernel state of entry. *)
Theorem other_family_passes_through :
  sa_family (object s a) <> AF_INET ->
  sa_family (object s a) <> AF_INET6 ->
  (24 <= List.length (object s a))%nat ->
  passes_through
    (bind dlsym_next_bind set_errno setsockopt sockfd (Some a) addrlen s)
    s f sockfd a addrlen (os s).
Proof.
  unfold object, passes_through. intros H4 H6 I.
  assert (I' : (inspected (sa_family (caller (mem s) a))
                <= List.length (caller (mem s) a))%nat).
  { unfold inspected. destruct (sa_family (caller (mem s) a) =? AF_INET); lia. }
  assert (D : do_move (decide (environ s) (sa_family (caller (mem s) a))
                         (sin_port (caller (mem s) a))) = false)
    by now rewrite decide_other_family.
  rewrite (bind_pass_through dlsym_next_bind set_errno setsockopt sockfd a
             addrlen s f func_resolves I' D).
  rewrite parsed_other_family by assumption.
  cbn [final result trace os]. repeat split; reflexivity.
Qed.

(** X3: with REBIND_OLD_PORT or REBIND_NEW_PORT not set, or set to the empty
    string, every request is passed through, whatever its port (lines 72-75);
    [strtol] is not called, so [func] runs in the kernel state of entry. *)
Theorem unconfigured_passes_through :
  unset (environ s "REBIND_OLD_PORT"%string)
  || unset (environ s "REBIND_NEW_PORT"%string) = true ->
  (inspected (sa_family (object s a)) <= List.length (object s a))%nat ->
  passes_through
    (bind dlsym_next_bind set_errno setsockopt sockfd (Some a) addrlen s)
    s f sockfd a addrlen (os s).
Proof.
  unfold object, passes_through. intros U I.
  rewrite (bind_pass_through dlsym_next_bind set_errno setsockopt sockfd a
             addrlen s f func_resolves I (decide_unset _ _ _ U)).
  rewrite parsed_unset by assumption.
  cbn [final result trace os]. repeat split; reflexivity.
Qed.

(** X4: a request for port 0 is never moved, whatever the environment holds:
    the old port must be non-zero and equal to the port asked for
    (lines 78-80). *)
Theorem port_zero_passes_through :
  sin_port (object s a) = 0 ->
  (inspected (sa_family (object s a)) <= List.length (object s a))%nat ->
  passes_through
    (bind dlsym_next_bind set_errno setsockopt sockfd (Some a) addrlen s)
    s f sockfd a addrlen
    (parsed set_errno (environ s) (sa_family (object s a)) (os s)).
Proof.
  unfold object, passes_through. intros P I.
  assert (D : do_move (decide (environ s) (sa_family (caller (mem s) a))
                         (sin_port (caller (mem s) a))) = false)
    by (rewrite P; apply decide_port_zero).
  rewrite (bind_pass_through dlsym_next_bind set_errno setsockopt sockfd a
             addrlen s f func_resolves I D).
  cbn [final result trace os]. repeat split; reflexivity.
Qed.

End PassThrough.

Lemma unselected_call_passes_through_witness :
  passes_through
    (bind (Some Sample.busy) Sample.set_errno Sample.no_option 3 (Some O) 300
       Cases.ipv4_8081)
    Cases.ipv4_8081 Sample.busy 3 O 300
    (parsed Sample.set_errno (environ Cases.ipv4_8081)
       (sa_family (object Cases.ipv4_8081 O)) (os Cases.ipv4_8081)).
Proof.
  apply (unselected_call_passes_through (Some Sample.busy) Sample.set_errno
           Sample.no_option 3 O 300 Cases.ipv4_8081 Sample.busy).
  - reflexivity.
  - cbn. lia.
  - vm_compute. reflexivity.
Defined.

Lemma other_family_passes_through_witness :
  passes_through
    (bind (Some Sample.busy) Sample.set_errno Sample.no_option 3 (Some O) 110
       Cases.unix_socket)
    Cases.unix_socket Sample.busy 3 O 110 (os Cases.unix_socket).
Proof.
  apply (other_family_passes_through (Some Sample.busy) Sample.set_errno
           Sample.no_option 3 O 110 Cases.unix_socket Sample.busy).
  - reflexivity.
  - vm_compute. discriminate.
  - vm_compute. discriminate.
  - cbn. lia.
Defined.

Lemma unconfigured_passes_through_witness :
  passes_through
    (bind (Some Sample.busy) Sample.set_errno Sample.no_option 3 (Some O) 16
       Cases.ipv4_no_old)
    Cases.ipv4_no_old Sample.busy 3 O 16 (os Cases.ipv4_no_old).
Proof.
  apply (unconfigured_passes_through (Some Sample.busy) Sample.set_errno
           Sample.no_option 3 O 16 Cases.ipv4_no_old Sample.busy).
  - reflexivity.
  - reflexivity.
  - cbn. lia.
Defined.

Lemma port_zero_passes_through_witness :
  passes_through
    (bind (Some Sample.busy) Sample.set_errno Sample.no_option 3 (Some O) 16
       Cases.ipv4_any_port)
    Cases.ipv4_any_port Sample.busy 3 O 16
    (parsed Sample.set_errno (environ Cases.ipv4_any_port)
       (sa_family (object Cases.ipv4_any_port O)) (os Cases.ipv4_any_port)).
Proof.
  apply (port_zero_passes_through (Some Sample.busy) Sample.set_errno
           Sample.no_option 3 O 16 Cases.ipv4_any_port Sample.busy).
  - reflexivity.
  - reflexivity.
  - cbn. lia.
Defined.

(** ** Addresses too short to be read *)

Section Short.

Context {K : Type}.
Variable dlsym_next_bind : option (fnptr K).
Variable set_errno : Z -> K -> K.
Variable setsockopt : Z -> Z -> Z -> list byte -> K -> Z * K.
Variables (sockfd : Z) (a : nat) (addrlen : N) (s : process K).

Lemma mbind_faulted {A B : Type} (m : M K A) (k : A -> M K B)
  (p p' : process K) :
  m p = Faulted p' -> mbind m k p = Faulted p'.
Proof.
  intros H. unfold mbind. now rewrite H.
Qed.

Lemma load_short (p : process K) (off len : nat) :
  (List.length (caller (mem p) a) < off + len)%nat ->
  load (Some (Caller a)) off len p = Faulted p.
Proof.
  intros H. unfold load. cbn [bytes_at].
  destruct (Nat.leb_spec (off + len) (List.length (caller (mem p) a)));
    [lia | reflexivity].
Qed.

Lemma inspect_short (p : process K) (family : Z) :
  (List.length (caller (mem p) a) < inspected family)%nat ->
  inspect (Some (Caller a)) family p = Faulted p.
Proof.
  unfold inspect, inspected, inet_ntop, mbind.
  destruct (family =? AF_INET); intros H.
  - change (AF_INET =? AF_INET) with true. cbv iota.
    destruct (Nat.leb_spec (offsetof_sin_port + 2) (List.length (caller (mem p) a)))
      as [L | L].
    + rewrite (load_caller p a _ _ L).
      rewrite load_short; [reflexivity | cbn; lia].
    + rewrite load_short; [reflexivity | lia].
  - change (AF_INET6 =? AF_INET) with false. cbv iota.
    destruct (Nat.leb_spec (offsetof_sin6_port + 2) (List.length (caller (mem p) a)))
      as [L | L].
    + rewrite (load_caller p a _ _ L).
      rewrite load_short; [reflexivity | cbn; lia].
    + rewrite load_short; [reflexivity | lia].
Qed.

Lemma resolve_returns (p : process K) :
  exists p' : process K,
    resolve dlsym_next_bind p = Returned tt p' /\
    mem p' = mem p /\ trace p' = trace p.
Proof.
  unfold resolve. destruct (func p); eexists; repeat split.
Qed.

Lemma bind_short :
  (List.length (caller (mem s) a) < inspected (sa_family (caller (mem s) a)))%nat ->
  exists p : process K,
    bind dlsym_next_bind set_errno setsockopt sockfd (Some a) addrlen s = Faulted p /\
    trace p = trace s.
Proof.
  intros H. unfold bind. cbn [option_map].
  rewrite (mbind_returned _ _ s
             (Process (func s) (environ s) (Memory (caller (mem s)) (fresh s))
                (stack s) (os s) (trace s)) tt) by reflexivity.
  set (s0 := Process (func s) (environ s) (Memory (caller (mem s)) (fresh s))
               (stack s) (os s) (trace s)).
  destruct (Nat.leb_spec (offsetof_sa_family + 2) (List.length (caller (mem s) a)))
    as [L | L].
  - erewrite mbind_returned.
    2:{ erewrite mbind_returned by (apply load_caller; exact L). reflexivity. }
    cbn [mem caller]. fold (sa_family (caller (mem s) a)).
    destruct (resolve_returns s0) as (s1 & R & M1 & T1).
    rewrite (mbind_returned _ _ _ _ _ R).
    exists s1. split; [|exact T1].
    apply mbind_faulted, inspect_short. now rewrite M1.
  - exists s0. split; [|reflexivity].
    apply mbind_faulted, mbind_faulted, load_short. exact L.
Qed.

(** X5: lines 57-65 read the port and the address of the request whatever
    [addrlen] says, 8 bytes of an AF_INET address and 24 bytes of any other:
    where fewer bytes are mapped at [addr] the call stops there, having called
    nothing. *)
Theorem short_address_faults :
  (List.length (object s a) < inspected (sa_family (object s a)))%nat ->
  result (bind dlsym_next_bind set_errno setsockopt sockfd (Some a) addrlen s)
  = None /\
  trace (final (bind dlsym_next_bind set_errno setsockopt sockfd (Some a)
                  addrlen s)) = trace s.
Proof.
  unfold object. intros H. destruct (bind_short H) as (p & E & T).
  rewrite E. split; [reflexivity | exact T].
Qed.

End Short.

Lemma short_address_faults_witness :
  result (bind (Some Sample.busy) Sample.set_errno Sample.no_option 3 (Some O)
            12 Cases.netlink_socket) = None /\
  trace (final (bind (Some Sample.busy) Sample.set_errno Sample.no_option 3
                  (Some O) 12 Cases.netlink_socket)) =
  trace Cases.netlink_socket.
Proof.
  apply (short_address_faults (Some Sample.busy) Sample.set_errno
           Sample.no_option 3 O 12 Cases.netlink_socket).
  vm_compute. lia.
Defined.

(** ** The static [func] *)

Section Func.

Context {K : Type}.
Variable dlsym_next_bind : option (fnptr K).
Variable set_errno : Z -> K -> K.
Variable setsockopt : Z -> Z -> Z -> list byte -> K -> Z * K.

Lemma keeps_func_ret {A : Type} (x : A) : keeps_func (@ret K A x).
Proof. intros s. reflexivity. Qed.

Lemma keeps_func_mbind {A B : Type} (m : M K A) (k : A -> M K B) :
  keeps_func m -> (forall x, keeps_func (k x)) -> keeps_func (mbind m k).
Proof.
  intros Hm Hk s. unfold mbind. specialize (Hm s).
  destruct (m s) as [x p | p]; cbn [final] in *.
  - now rewrite Hk.
  - assumption.
Qed.

Lemma keeps_func_load (p : pointer) (off len : nat) :
  keeps_func (@load K p off len).
Proof.
  intros s. unfold load. destruct p as [r|]; [|reflexivity].
  now destruct (off + len <=? List.length (bytes_at (mem s) r))%nat.
Qed.

Lemma keeps_func_store (p : pointer) (off : nat) (bs : list byte) :
  keeps_func (@store K p off bs).
Proof.
  intros s. unfold store. destruct p as [r|]; [|reflexivity].
  now destruct (off + List.length bs <=? List.length (bytes_at (mem s) r))%nat.
Qed.

Lemma keeps_func_enter : keeps_func (@enter K).
Proof. intros s. reflexivity. Qed.

Lemma keeps_func_getenv (name : string) : keeps_func (@getenv K name).
Proof. intros s. reflexivity. Qed.

Lemma keeps_func_strtol (nptr : string) : keeps_func (strtol set_errno nptr).
Proof. intros s. reflexivity. Qed.

Lemma keeps_func_call_func (sockfd : Z) (p : pointer) (addrlen : N) :
  keeps_func (@call_func K sockfd p addrlen).
Proof.
  intros s. unfold call_func. destruct (func s) as [f|] eqn:F; [|assumption].
  destruct (f sockfd p addrlen (mem s) (os s)). exact F.
Qed.

Lemma keeps_func_call_setsockopt (sockfd level optname : Z)
  (optval : list byte) :
  keeps_func (call_setsockopt setsockopt sockfd level optname optval).
Proof.
  intros s. unfold call_setsockopt.
  now destruct (setsockopt sockfd level optname optval (os s)).
Qed.

Ltac keeps_func :=
  repeat first
    [ apply keeps_func_mbind; [|intros ?]
    | apply keeps_func_ret
    | apply keeps_func_load
    | apply keeps_func_store
    | apply keeps_func_enter
    | apply keeps_func_getenv
    | apply keeps_func_strtol
    | apply keeps_func_call_func
    | apply keeps_func_call_setsockopt ].

Lemma keeps_func_inspect (p : pointer) (family : Z) :
  keeps_func (@inspect K p family).
Proof.
  unfold inspect, inet_ntop. destruct (family =? AF_INET); keeps_func.
Qed.

Lemma keeps_func_determine (family askport : Z) :
  keeps_func (determine set_errno family askport).
Proof.
  unfold determine.
  destruct ((family =? AF_INET) || (family =? AF_INET6)); [|apply keeps_func_ret].
  apply keeps_func_mbind; [apply keeps_func_getenv | intros [old|]];
    (apply keeps_func_mbind; [apply keeps_func_getenv | intros [new|]]);
    try apply keeps_func_ret.
  destruct (nonempty old && nonempty new); keeps_func.
Qed.

Lemma keeps_func_move (sockfd : Z) (p : pointer) (addrlen : N)
  (family newport : Z) :
  keeps_func (move setsockopt sockfd p addrlen family newport).
Proof.
  unfold move, memcpy. destruct (family =? AF_INET); keeps_func.
Qed.

(** Lines 57-122, once [func] is resolved. *)
Lemma keeps_func_rest (sockfd : Z) (p : pointer) (addrlen : N) (family : Z) :
  keeps_func
    (mbind (inspect p family)
       (fun askport =>
          mbind (determine set_errno family askport)
            (fun d =>
               if negb (do_move d) then call_func sockfd p addrlen
               else move setsockopt sockfd p addrlen family (newport d)))).
Proof.
  apply keeps_func_mbind; [apply keeps_func_inspect | intros askport].
  apply keeps_func_mbind; [apply keeps_func_determine | intros d].
  destruct (negb (do_move d));
    [apply keeps_func_call_func | apply keeps_func_move].
Qed.

(** Line 51. *)
Lemma family_step (addr : option nat) (p : process K) :
  (exists family : Z,
     match addr with
     | Some _ =>
         mbind (load (option_map Caller addr) offsetof_sa_family 2)
           (fun bs => ret (CInt.host16 bs))
     | None => ret AF_UNSPEC
     end p = Returned family p) \/
  match addr with
  | Some _ =>
      mbind (load (option_map Caller addr) offsetof_sa_family 2)
        (fun bs => ret (CInt.host16 bs))
  | None => ret AF_UNSPEC
  end p = Faulted p.
Proof.
  destruct addr as [a|]; cbn [option_map].
  - unfold mbind, load, ret. cbn [bytes_at].
    destruct (offsetof_sa_family + 2 <=? List.length (caller (mem p) a))%nat;
      eauto.
  - left. now exists AF_UNSPEC.
Qed.

Lemma func_resolve (p : process K) :
  exists p' : process K,
    resolve dlsym_next_bind p = Returned tt p' /\
    func p' = resolved dlsym_next_bind p.
Proof.
  unfold resolve, resolved. destruct (func p) eqn:F; eexists; split;
    try reflexivity; assumption.
Qed.

(** X7: a call of [bind] that returns leaves in [func] the implementation it
    called: the one already there, or else the one [dlsym] answered
    (lines 53-55); [func] is written nowhere else. *)
Theorem returned_call_caches_func (sockfd : Z) (addr : option nat)
  (addrlen : N) (s : process K) (r : Z) :
  result (bind dlsym_next_bind set_errno setsockopt sockfd addr addrlen s)
  = Some r ->
  func (final (bind dlsym_next_bind set_errno setsockopt sockfd addr addrlen s))
  = resolved dlsym_next_bind s.
Proof.
  unfold bind.
  rewrite (mbind_returned _ _ s
             (Process (func s) (environ s) (Memory (caller (mem s)) (fresh s))
                (stack s) (os s) (trace s)) tt) by reflexivity.
  set (s0 := Process (func s) (environ s) (Memory (caller (mem s)) (fresh s))
               (stack s) (os s) (trace s)).
  destruct (family_step addr s0) as [[family E] | E].
  - rewrite (mbind_returned _ _ _ _ _ E).
    destruct (func_resolve s0) as (s1 & R & F1).
    rewrite (mbind_returned _ _ _ _ _ R). intros _.
    rewrite keeps_func_rest. exact F1.
  - rewrite !(mbind_faulted _ _ _ _ E). discriminate.
Qed.

(** X8: once [func] is set, [dlsym] is not asked again: what it would answer
    makes no difference to the call (line 53). *)
Theorem cached_func_ignores_dlsym (other : option (fnptr K)) (sockfd : Z)
  (addr : option nat) (addrlen : N) (s : process K) (f : fnptr K) :
  func s = Some f ->
  bind other set_errno setsockopt sockfd addr addrlen s =
  bind dlsym_next_bind set_errno setsockopt sockfd addr addrlen s.
Proof.
  intros F. unfold bind.
  rewrite !(mbind_returned _ _ s
              (Process (func s) (environ s) (Memory (caller (mem s)) (fresh s))
                 (stack s) (os s) (trace s)) tt) by reflexivity.
  set (s0 := Process (func s) (environ s) (Memory (caller (mem s)) (fresh s))
               (stack s) (os s) (trace s)).
  destruct (family_step addr s0) as [[family E] | E].
  - rewrite !(mbind_returned _ _ _ _ _ E).
    assert (R : forall d : option (fnptr K), resolve d s0 = Returned tt s0)
      by (intros d; unfold resolve, s0; cbn [func]; now rewrite F).
    now rewrite !(mbind_returned _ _ _ _ _ (R _)).
  - now rewrite !(mbind_faulted _ _ _ _ E).
Qed.

End Func.

Section Unresolved.

Context {K : Type}.
Variable set_errno : Z -> K -> K.
Variable setsockopt : Z -> Z -> Z -> list byte -> K -> Z * K.

Lemma never_returns_call_func (sockfd : Z) (p : pointer) (addrlen : N) :
  never_returns (@call_func K sockfd p addrlen).
Proof.
  intros s F. unfold call_func. now rewrite F.
Qed.

Lemma never_returns_after {A B : Type} (m : M K A) (k : A -> M K B) :
  keeps_func m -> (forall x, never_returns (k x)) -> never_returns (mbind m k).
Proof.
  intros Hm Hk s F. unfold mbind. specialize (Hm s).
  destruct (m s) as [x p | p]; cbn [final] in *; [|reflexivity].
  apply Hk. congruence.
Qed.

Lemma keeps_func_resolve_null : keeps_func (@resolve K None).
Proof.
  intros s. unfold resolve. destruct (func s) eqn:F; [exact F | reflexivity].
Qed.

Lemma never_returns_move (sockfd : Z) (p : pointer) (addrlen : N)
  (family newport : Z) :
  never_returns (move setsockopt sockfd p addrlen family newport).
Proof.
  unfold move.
  apply never_returns_after;
    [unfold memcpy; apply keeps_func_mbind;
       [apply keeps_func_load | intros; apply keeps_func_store] | intros _].
  apply never_returns_after; [|intros _; apply never_returns_call_func].
  destruct (family =? AF_INET);
    repeat first
      [ apply keeps_func_mbind; [|intros ?]
      | apply keeps_func_store
      | apply keeps_func_call_setsockopt ].
Qed.

Lemma never_returns_bind (sockfd : Z) (addr : option nat) (addrlen : N) :
  never_returns (bind None set_errno setsockopt sockfd addr addrlen).
Proof.
  unfold bind.
  apply never_returns_after; [apply keeps_func_enter | intros _].
  apply never_returns_after.
  { destruct addr; [|apply keeps_func_ret].
    apply keeps_func_mbind; [apply keeps_func_load | intros; apply keeps_func_ret]. }
  intros family.
  apply never_returns_after; [apply keeps_func_resolve_null | intros _].
  apply never_returns_after; [apply keeps_func_inspect | intros askport].
  apply never_returns_after; [apply keeps_func_determine | intros d].
  destruct (negb (do_move d));
    [apply never_returns_call_func | apply never_returns_move].
Qed.

(** X6: when [func] is not set and [dlsym] finds no other [bind], no call of
    [bind] returns: [func] stays null (line 54) and every path that does not
    stop earlier ends in a call through it (lines 88 and 119). *)
Theorem unresolved_bind_never_returns (dlsym_next_bind : option (fnptr K))
  (sockfd : Z) (addr : option nat) (addrlen : N) (s : process K) :
  resolved dlsym_next_bind s = None ->
  result (bind dlsym_next_bind set_errno setsockopt sockfd addr addrlen s)
  = None.
Proof.
  unfold resolved. destruct (func s) eqn:F; [discriminate|]. intros ->.
  now apply never_returns_bind.
Qed.

End Unresolved.

Lemma unresolved_bind_never_returns_witness :
  result (bind None Sample.set_errno Sample.no_option 3 (Some O) 16
            Sample.ipv4_8080) = None.
Proof.
  apply (unresolved_bind_never_returns Sample.set_errno Sample.no_option None
           3 (Some O) 16 Sample.ipv4_8080).
  reflexivity.
Defined.

Lemma returned_call_caches_func_witness :
  func (final (bind (Some Sample.busy) Sample.set_errno Sample.no_option 3
                 (Some O) 16 Sample.ipv4_8080)) =
  resolved (Some Sample.busy) Sample.ipv4_8080.
Proof.
  apply (returned_call_caches_func (Some Sample.busy) Sample.set_errno
           Sample.no_option 3 (Some O) 16 Sample.ipv4_8080 (-1)).
  vm_compute. reflexivity.
Defined.

Lemma cached_func_ignores_dlsym_witness :
  bind None Sample.set_errno Sample.no_option 3 (Some O) 16
    Cases.ipv4_8080_again =
  bind (Some Sample.busy) Sample.set_errno Sample.no_option 3 (Some O) 16
    Cases.ipv4_8080_again.
Proof.
  apply (cached_func_ignores_dlsym (Some Sample.busy) Sample.set_errno
           Sample.no_option None 3 (Some O) 16 Cases.ipv4_8080_again
           Sample.busy).
  reflexivity.
Defined.

(** ** The socket option *)

Section Options.

Context {K : Type}.
Variable dlsym_next_bind : option (fnptr K).
Variable set_errno : Z -> K -> K.
Variable setsockopt : Z -> Z -> Z -> list byte -> K -> Z * K.
Variables (sockfd : Z) (a : nat) (addrlen : N) (s : process K) (f : fnptr K).

(** X9: a call on an address that can be read calls [func] exactly once
    (line 88 or line 119), and calls [setsockopt] when it moves an AF_INET6
    address and in no other case (lines 113-114): a call that is passed
    through and a call that moves an AF_INET address leave the options of the
    socket alone. *)
Theorem options_change_only_on_ipv6_move :
  resolved dlsym_next_bind s = Some f ->
  (inspected (sa_family (object s a)) <= List.length (object s a))%nat ->
  (do_move (decide (environ s) (sa_family (object s a)) (sin_port (object s a)))
   = true ->
   (N.to_nat (cap addrlen) <= List.length (object s a))%nat) ->
  exists new : list call,
    trace (final (bind dlsym_next_bind set_errno setsockopt sockfd (Some a)
                    addrlen s)) = trace s ++ new /\
    List.length (filter is_func new) = 1%nat /\
    existsb is_setsockopt new =
    do_move (decide (environ s) (sa_family (object s a)) (sin_port (object s a)))
    && (sa_family (object s a) =? AF_INET6).
Proof.
  unfold object, inspected. intros R I C.
  destruct (do_move (decide (environ s) (sa_family (caller (mem s) a))
                       (sin_port (caller (mem s) a)))) eqn:D.
  - specialize (C eq_refl).
    destruct (decide_moves _ _ _ D) as ([F | F] & _); revert I D; rewrite F;
      intros I D.
    + rewrite (bind_moves_inet dlsym_next_bind set_errno setsockopt sockfd a
                 addrlen s f R F I C D).
      cbn [final trace]. eexists. repeat split; reflexivity.
    + rewrite (bind_moves_inet6 dlsym_next_bind set_errno setsockopt sockfd a
                 addrlen s f R F I C D).
      cbn [final trace]. eexists. repeat split; reflexivity.
  - rewrite (bind_pass_through dlsym_next_bind set_errno setsockopt sockfd a
               addrlen s f R I D).
    cbn [final trace]. eexists. repeat split; reflexivity.
Qed.

End Options.

Lemma options_change_only_on_ipv6_move_witness :
  exists new : list call,
    trace (final (bind (Some Sample.busy) Sample.set_errno Sample.no_option 3
                    (Some O) 28 Sample.ipv6_80)) =
    trace Sample.ipv6_80 ++ new /\
    List.length (filter is_func new) = 1%nat /\
    existsb is_setsockopt new =
    do_move (decide (environ Sample.ipv6_80)
               (sa_family (object Sample.ipv6_80 O))
               (sin_port (object Sample.ipv6_80 O)))
    && (sa_family (object Sample.ipv6_80 O) =? AF_INET6).
Proof.
  apply (options_change_only_on_ipv6_move (Some Sample.busy) Sample.set_errno
           Sample.no_option 3 O 28 Sample.ipv6_80 Sample.busy).
  - reflexivity.
  - cbn. lia.
  - intros _. cbn. lia.
Defined.

(** ** What the real bind sees of the address asked for *)

Lemma newport_decide (environ : string -> option string)
  (family askport askport' : Z) :
  newport (decide environ family askport) =
  newport (decide environ family askport').
Proof.
  unfold decide, parse_ports, verdict.
  destruct ((family =? AF_INET) || (family =? AF_INET6)); [|reflexivity].
  destruct (environ "REBIND_OLD_PORT"%string) as [old|]; [|reflexivity].
  destruct (environ "REBIND_NEW_PORT"%string) as [new|]; [|reflexivity].
  destruct (nonempty old && nonempty new); [|reflexivity].
  now destruct (Strtol.strtol old), (Strtol.strtol new).
Qed.

Lemma redirected_agree (family newport : Z) (junk obj1 obj2 : list byte)
  (n : nat) :
  List.length junk = sizeof_sockaddr_storage ->
  (n <= sizeof_sockaddr_storage)%nat ->
  (n <= List.length obj1)%nat -> (n <= List.length obj2)%nat ->
  (forall i : nat,
      (i < n)%nat -> rewritten family i = false ->
      nth_error obj1 i = nth_error obj2 i) ->
  redirected family newport junk obj1 n = redirected family newport junk obj2 n.
Proof.
  intros J C R1 R2 A.
  pose proof (RedirectedFacts.length_copy junk obj1 n J C R1) as L1.
  pose proof (RedirectedFacts.length_copy junk obj2 n J C R2) as L2.
  apply nth_error_ext. intros i. revert A.
  unfold redirected, rewritten. destruct (family =? AF_INET); intros A.
  - do 2 rewrite (BufferFacts.nth_error_splice (splice _ _ _)) by RedirectedFacts.fits L1.
    do 2 rewrite (BufferFacts.nth_error_splice (splice _ _ _)) by RedirectedFacts.fits L2.
    rewrite !(RedirectedFacts.nth_error_copy junk _ n J C) by assumption.
    specialize (A i). revert A.
    unfold offsetof_sin_port, offsetof_sin_addr.
    change (List.length (CInt.htonl INADDR_LOOPBACK)) with 4%nat.
    change (List.length (CInt.htons newport)) with 2%nat.
    cbn [Nat.add].
    RedirectedFacts.compare_all; cbn [andb orb]; intros A;
      try reflexivity; try lia; apply A; (lia || reflexivity).
  - do 3 rewrite (BufferFacts.nth_error_splice (splice _ _ _)) by RedirectedFacts.fits L1.
    do 3 rewrite (BufferFacts.nth_error_splice (splice _ _ _)) by RedirectedFacts.fits L2.
    rewrite !(RedirectedFacts.nth_error_copy junk _ n J C) by assumption.
    specialize (A i). revert A.
    unfold offsetof_sin6_port, offsetof_sin6_addr, offsetof_sin6_scope_id.
    change (List.length (CInt.store32 0)) with 4%nat.
    change (List.length (CInt.htons newport)) with 2%nat.
    change (List.length v4_loopback_mapped) with 16%nat.
    cbn [Nat.add].
    RedirectedFacts.compare_all; cbn [andb orb]; intros A;
      try reflexivity; try lia; apply A; (lia || reflexivity).
Qed.

Section Unseen.

Context {K : Type}.
Variable dlsym_next_bind : option (fnptr K).
Variable set_errno : Z -> K -> K.
Variable setsockopt : Z -> Z -> Z -> list byte -> K -> Z * K.
Variables (sockfd : Z) (a : nat) (addrlen : N) (s : process K) (f : fnptr K).
Variable other : list byte.

Lemma object_with_object : object (with_object s a other) a = other.
Proof.
  unfold object, with_object, set_mem, update. cbn [mem caller].
  now rewrite Nat.eqb_refl.
Qed.

(** X10: the bytes a moved call hands to [func] do not depend on the address
    asked for.  Take two requests of one family that are both moved and whose
    addresses agree, over the length copied, outside the fields lines 104-118
    overwrite: [func] gets the same bytes and the same length in both. *)
Theorem requested_address_does_not_reach_func :
  resolved dlsym_next_bind s = Some f ->
  sa_family other = sa_family (object s a) ->
  (inspected (sa_family (object s a)) <= List.length (object s a))%nat ->
  (inspected (sa_family (object s a)) <= List.length other)%nat ->
  (N.to_nat (cap addrlen) <= List.length (object s a))%nat ->
  (N.to_nat (cap addrlen) <= List.length other)%nat ->
  do_move (decide (environ s) (sa_family (object s a)) (sin_port (object s a)))
  = true ->
  do_move (decide (environ s) (sa_family (object s a)) (sin_port other))
  = true ->
  (forall i : nat,
      (i < N.to_nat (cap addrlen))%nat ->
      rewritten (sa_family (object s a)) i = false ->
      nth_error (object s a) i = nth_error other i) ->
  exists (pre pre' : list call) (buf : list byte),
    trace (final (bind dlsym_next_bind set_errno setsockopt sockfd (Some a)
                    addrlen s)) =
      pre ++ [Call_func sockfd (Some Addr_tmp) buf (cap addrlen)] /\
    trace (final (bind dlsym_next_bind set_errno setsockopt sockfd (Some a)
                    addrlen (with_object s a other))) =
      pre' ++ [Call_func sockfd (Some Addr_tmp) buf (cap addrlen)].
Proof.
  intros R F I I' C C' D D' A.
  destruct (bind_moves dlsym_next_bind set_errno setsockopt sockfd a addrlen s
              f R I C D) as (pre & k & E).
  pose proof object_with_object as O.
  destruct (bind_moves dlsym_next_bind set_errno setsockopt sockfd a addrlen
              (with_object s a other) f) as (pre' & k' & E').
  - exact R.
  - rewrite O, F. exact I'.
  - rewrite O. exact C'.
  - rewrite O, F. exact D'.
  - rewrite E, E'. cbn [final trace]. rewrite O, F.
    eexists pre, pre', _. split; [reflexivity|].
    do 3 f_equal.
    change (environ (with_object s a other)) with (environ s).
    change (fresh (with_object s a other)) with (fresh s).
    rewrite (newport_decide (environ s) _ (sin_port other) (sin_port (object s a))).
    symmetry. apply redirected_agree;
      auto using BufferFacts.length_fresh, cap_le.
Qed.

End Unseen.

Lemma requested_address_does_not_reach_func_witness :
  exists (pre pre' : list call) (buf : list byte),
    trace (final (bind (Some Sample.busy) Sample.set_errno Sample.no_option 3
                    (Some O) 16 Sample.ipv4_8080)) =
      pre ++ [Call_func 3 (Some Addr_tmp) buf (cap 16)] /\
    trace (final (bind (Some Sample.busy) Sample.set_errno Sample.no_option 3
                    (Some O) 16
                    (with_object Sample.ipv4_8080 O
                       (Sample.sockaddr_in 8080 [192; 168; 1; 7])))) =
      pre' ++ [Call_func 3 (Some Addr_tmp) buf (cap 16)].
Proof.
  apply (requested_address_does_not_reach_func (Some Sample.busy)
           Sample.set_errno Sample.no_option 3 O 16 Sample.ipv4_8080
           Sample.busy (Sample.sockaddr_in 8080 [192; 168; 1; 7])).
  - reflexivity.
  - reflexivity.
  - cbn. lia.
  - cbn. lia.
  - cbn. lia.
  - cbn. lia.
  - vm_compute. reflexivity.
  - vm_compute. reflexivity.
  - intros i Hi Hr.
    do 16 (destruct i as [|i]; [first [reflexivity | discriminate Hr]|]).
    vm_compute in Hi. lia.
Defined.

(** ** The family of a moved address *)

Section Family.

Context {K : Type}.
Variable dlsym_next_bind : option (fnptr K).
Variable set_errno : Z -> K -> K.
Variable setsockopt : Z -> Z -> Z -> list byte -> K -> Z * K.
Variables (sockfd : Z) (a : nat) (addrlen : N) (s : process K) (f : fnptr K).

(** X11: a moved call hands to [func] an address of the family asked for,
    provided the length given covers [sa_family]: the family is copied at
    line 101 and none of lines 104-118 writes to it. *)
Theorem moved_address_keeps_family :
  resolved dlsym_next_bind s = Some f ->
  (inspected (sa_family (object s a)) <= List.length (object s a))%nat ->
  (N.to_nat (cap addrlen) <= List.length (object s a))%nat ->
  do_move (decide (environ s) (sa_family (object s a)) (sin_port (object s a)))
  = true ->
  (2 <= N.to_nat (cap addrlen))%nat ->
  exists (pre : list call) (buf : list byte),
    trace (final (bind dlsym_next_bind set_errno setsockopt sockfd (Some a)
                    addrlen s)) =
      pre ++ [Call_func sockfd (Some Addr_tmp) buf (cap addrlen)] /\
    sa_family buf = sa_family (object s a).
Proof.
  intros R I C D L.
  destruct (bind_moves dlsym_next_bind set_errno setsockopt sockfd a addrlen s
              f R I C D) as (pre & k & E).
  rewrite E. cbn [final trace]. eexists pre, _. split; [reflexivity|].
  set (buf := redirected _ _ _ _ _).
  assert (Ef : field buf offsetof_sa_family 2 =
               field (object s a) offsetof_sa_family 2).
  { apply nth_error_ext. intros i. rewrite !BufferFacts.nth_error_field.
    destruct (Nat.ltb_spec i 2) as [Hi | Hi]; [|reflexivity].
    unfold offsetof_sa_family, buf. cbn [Nat.add].
    rewrite RedirectedFacts.redirected_elsewhere;
      auto using BufferFacts.length_fresh, cap_le.
    - destruct (Nat.ltb_spec i (N.to_nat (cap addrlen))); [reflexivity | lia].
    - unfold rewritten.
      destruct (sa_family (object s a) =? AF_INET);
        RedirectedFacts.compare_all; cbn [andb orb]; try reflexivity; lia. }
  change (sa_family buf) with (CInt.host16 (field buf offsetof_sa_family 2)).
  now rewrite Ef.
Qed.

End Family.

Lemma moved_address_keeps_family_witness :
  exists (pre : list call) (buf : list byte),
    trace (final (bind (Some Sample.busy) Sample.set_errno Sample.no_option 3
                    (Some O) 28 Sample.ipv6_80)) =
      pre ++ [Call_func 3 (Some Addr_tmp) buf (cap 28)] /\
    sa_family buf = sa_family (object Sample.ipv6_80 O).
Proof.
  apply (moved_address_keeps_family (Some Sample.busy) Sample.set_errno
           Sample.no_option 3 O 28 Sample.ipv6_80 Sample.busy).
  - reflexivity.
  - cbn. lia.
  - cbn. lia.
  - vm_compute. reflexivity.
  - cbn. lia.
Defined.
